(** * Interview report service: narrative parser, score colours, story
      assembly and request validation of [app.py]

    A shallow embedding of the pure parts of [src/app.py] ([src/main.py]
    carries the same [parse_full_report], [create_score_chart],
    [create_qa_table] and request handler; the two files differ in the
    page decoration only) together with the fragments of the Python
    runtime they call: [str.strip], [str.replace], [int], and the
    backtracking matcher behind [re.findall], [re.search] and [re.sub]
    for the constructs the patterns of the program use.

    Text model.  A Python [str] is a sequence of code points; here it is
    a [list ascii], i.e. the texts whose code points are below 256.  On
    that range the classes [\s], [\d] and the case folding of
    [re.IGNORECASE] are the ones written below.

    The layout library is outside the program.  Its markup parser, which
    [Paragraph(text, style)] runs on the text and which raises on a text
    it refuses, and the layout engine behind [doc.build] are parameters
    of the model; frames and page templates are left to that engine.  The
    canvas of the two page callbacks is the list of the calls made on
    it. *)

From Stdlib Require Import Ascii String DecimalString ZArith Lia Bool Arith List.
From Stdlib Require DecimalZ DecimalPos.
Import ListNotations.

Set Warnings "-register-all".

(** ** Python strings *)

Definition pystr := list ascii.

Definition nl : ascii := "010"%char.

(** [py] reads a literal the way Python reads it: the two characters
    backslash-n stand for one line feed. *)
Fixpoint py (s : string) : pystr :=
  match s with
  | EmptyString => []
  | String "\" (String "n" s') => nl :: py s'
  | String c s' => c :: py s'
  end.

Definition ord (c : ascii) : nat := nat_of_ascii c.

Definition between (lo hi n : nat) : bool := (lo <=? n) && (n <=? hi).

(** [str.isspace] / [\s] on code points below 256:
    TAB..CR, FS..US, SPACE, NEL and NBSP. *)
Definition isspace (c : ascii) : bool :=
  let n := ord c in
  between 9 13 n || between 28 32 n || (n =? 133) || (n =? 160).

(** [\d] on code points below 256: the ten ASCII digits. *)
Definition isdigit (c : ascii) : bool := between 48 57 (ord c).

(** [str.lower] on one code point below 256. *)
Definition lower (c : ascii) : ascii :=
  let n := ord c in
  if between 65 90 n || (between 192 222 n && negb (n =? 215))
  then ascii_of_nat (n + 32) else c.

Definition ascii_eqb (a b : ascii) : bool := Ascii.eqb a b.

Fixpoint startswith (p s : pystr) : bool :=
  match p, s with
  | [], _ => true
  | a :: p', b :: s' => ascii_eqb a b && startswith p' s'
  | _ :: _, [] => false
  end.

(** [str.lstrip], [str.rstrip], [str.strip] without argument. *)
Fixpoint lstrip (s : pystr) : pystr :=
  match s with
  | c :: s' => if isspace c then lstrip s' else s
  | [] => []
  end.

Definition rstrip (s : pystr) : pystr := rev (lstrip (rev s)).

Definition strip (s : pystr) : pystr := rstrip (lstrip s).

(** [s.replace(old, new)] for a non-empty [old] (both call sites pass a
    non-empty literal): left to right, non-overlapping.  [skip] counts the
    characters of an occurrence that are still to be dropped. *)
Fixpoint replace_from (old new : pystr) (skip : nat) (s : pystr) : pystr :=
  match s with
  | [] => []
  | c :: s' =>
      match skip with
      | S k => replace_from old new k s'
      | O => if startswith old s
             then new ++ replace_from old new (length old - 1) s'
             else c :: replace_from old new 0 s'
      end
  end.

Definition replace (old new s : pystr) : pystr := replace_from old new 0 s.

(** [sep.join(l)] *)
Fixpoint join (sep : pystr) (l : list pystr) : pystr :=
  match l with
  | [] => []
  | a :: l' =>
      match l' with
      | [] => a
      | _ :: _ => a ++ sep ++ join sep l'
      end
  end.

(** ** Exceptions and results *)

Inductive exn : Type :=
| ValueError (msg : pystr)
| TypeError (msg : pystr)
| KeyError (key : pystr)
| HTTPException (msg : pystr)
| RenderError (msg : pystr).

Inductive result (A : Type) : Type :=
| Ok (a : A)
| Raise (e : exn).

Arguments Ok {A} a.
Arguments Raise {A} e.

Definition bind {A B} (m : result A) (f : A -> result B) : result B :=
  match m with
  | Ok a => f a
  | Raise e => Raise e
  end.

Notation "x <- m ;; k" := (bind m (fun x => k))
  (at level 61, m at next level, right associativity).

(** The body of a [for] loop that appends one value per element; the first
    exception leaves the loop. *)
Fixpoint for_each {A B} (f : A -> result B) (l : list A) : result (list B) :=
  match l with
  | [] => Ok []
  | a :: l' => b <- f a ;; bs <- for_each f l' ;; Ok (b :: bs)
  end.

(** [str(n)] for an integer. *)
Definition str_of_Z (n : Z) : pystr :=
  list_ascii_of_string (NilZero.string_of_int (Z.to_int n)).

(** [repr(s)] of a [str] on code points below 256: double quotes around
    it when it holds a single quote and no double quote, single quotes
    otherwise; the quote, the backslash, tab, line feed and carriage
    return escaped by a backslash, every other code point that is not
    printable written [\xNN]. *)
Definition hex_digit (n : nat) : ascii :=
  nth n (py "0123456789abcdef") "0"%char.

Definition isprintable (c : ascii) : bool :=
  let n := ord c in
  between 32 126 n || (between 161 255 n && negb (n =? 173)).

Definition repr_char (quote c : ascii) : pystr :=
  let n := ord c in
  if ascii_eqb c quote || ascii_eqb c "\"%char then ["\"%char; c]
  else if n =? 9 then ["\"%char; "t"%char]
  else if n =? 10 then ["\"%char; "n"%char]
  else if n =? 13 then ["\"%char; "r"%char]
  else if isprintable c then [c]
  else ["\"%char; "x"%char; hex_digit (n / 16); hex_digit (n mod 16)].

Definition repr (s : pystr) : pystr :=
  let quote :=
    if existsb (ascii_eqb "'"%char) s && negb (existsb (ascii_eqb "034"%char) s)
    then "034"%char else "'"%char in
  quote :: flat_map (repr_char quote) s ++ [quote].

(** [int(s)] on a [str]: surrounding whitespace, an optional sign, then
    decimal digits with single underscores between digits; anything else
    raises [ValueError] with the first 200 characters of [repr(s)] in its
    message.  So does, in CPython 3.11 and later and in the security
    releases of the earlier lines, a literal of more digits than
    [sys.int_info.default_max_str_digits]; the messages are those of
    CPython 3.11. *)
Definition int_max_str_digits : nat := 4300.

Definition digit_value (c : ascii) : Z := Z.of_nat (ord c - 48).

Definition invalid_literal (s : pystr) : exn :=
  ValueError (py "invalid literal for int() with base 10: "
              ++ firstn 200 (repr s)).

Definition exceeds_limit (digits : nat) : exn :=
  ValueError (py "Exceeds the limit (4300 digits) for integer string conversion: value has "
              ++ str_of_Z (Z.of_nat digits)
              ++ py " digits; use sys.set_int_max_str_digits() to increase the limit").

(** The end of the run of digits and underscores of the literal [s]:
    [digits] counts the digits seen, [rest] is what follows the run. *)
Definition int_finish (s : pystr) (acc : Z) (digits : nat)
           (prev_underscore : bool) (rest : pystr) : result Z :=
  if prev_underscore then Raise (invalid_literal s)
  else if int_max_str_digits <? digits then Raise (exceeds_limit digits)
  else match digits, rest with
       | S _, [] => Ok acc
       | _, _ => Raise (invalid_literal s)
       end.

Fixpoint int_scan (s : pystr) (acc : Z) (digits : nat) (prev_underscore : bool)
         (body : pystr) : result Z :=
  match body with
  | [] => int_finish s acc digits prev_underscore []
  | c :: body' =>
      if isdigit c
      then int_scan s (10 * acc + digit_value c)%Z (S digits) false body'
      else if ascii_eqb c "_" then
             if prev_underscore then Raise (invalid_literal s)
             else int_scan s acc digits true body'
           else int_finish s acc digits prev_underscore body
  end.

Definition int_py (s : pystr) : result Z :=
  let t := strip s in
  let '(neg, body) :=
    match t with
    | "-"%char :: b => (true, b)
    | "+"%char :: b => (false, b)
    | _ => (false, t)
    end in
  match body with
  | "_"%char :: _ => Raise (invalid_literal s)
  | _ => v <- int_scan s 0 0 false body ;; Ok (if neg then (- v)%Z else v)
  end.

(** ** The regular expressions of the program

    The constructs that occur in the three patterns: literal characters,
    the classes [.], [\s], [\d], [[0-9]] under the quantifiers [*], [+]
    and [+?], sequence, alternation, capturing groups, positive lookahead
    and [\Z]. *)

Record flags : Type := { IGNORECASE : bool; DOTALL : bool }.

Inductive cclass : Type :=
| AnyChar                       (* .      *)
| Space                         (* \s     *)
| Digit                         (* \d     *)
| Range (lo hi : ascii).        (* [lo-hi] *)

Inductive regex : Type :=
| Eps
| Chr (c : ascii)
| Star (k : cclass)             (* k*  greedy *)
| Plus (k : cclass)             (* k+  greedy *)
| PlusLazy (k : cclass)         (* k+? lazy   *)
| Seq (r1 r2 : regex)
| Alt (r1 r2 : regex)           (* r1|r2, r1 first *)
| Group (n : nat) (r : regex)   (* the n-th (...) *)
| Lookahead (r : regex)         (* (?=r) *)
| EndOfString.                  (* \Z *)

Declare Scope regex_scope.
Delimit Scope regex_scope with re.
Infix ";;;" := Seq (at level 60, right associativity) : regex_scope.
Infix "<|>" := Alt (at level 65, right associativity) : regex_scope.

(** A literal run of characters. *)
Fixpoint lit (s : pystr) : regex :=
  match s with
  | [] => Eps
  | c :: s' => Seq (Chr c) (lit s')
  end.

Definition caps := list (nat * pystr).

Fixpoint lookup_group (n : nat) (g : caps) : option pystr :=
  match g with
  | [] => None
  | (m, v) :: g' => if n =? m then Some v else lookup_group n g'
  end.

(** [m.group(n)] as [findall] reports it: the empty string for a group
    that did not take part. *)
Definition group (g : caps) (n : nat) : pystr :=
  match lookup_group n g with Some v => v | None => [] end.

Definition set_group (n : nat) (v : pystr) (g : caps) : caps := (n, v) :: g.

(** The characters of [s] in front of its suffix [s']. *)
Definition consumed (s s' : pystr) : pystr := firstn (length s - length s') s.

Section Matcher.

Variable fl : flags.

Definition chr_matches (c x : ascii) : bool :=
  if IGNORECASE fl then ascii_eqb (lower c) (lower x) else ascii_eqb c x.

Definition in_class (k : cclass) (x : ascii) : bool :=
  match k with
  | AnyChar => DOTALL fl || negb (ascii_eqb x nl)
  | Space => isspace x
  | Digit => isdigit x
  | Range lo hi => between (ord lo) (ord hi) (ord x)
  end.

Definition outcome := (pystr * caps)%type.

(** Greedy repetition: take every character the class allows, then give
    them back one at a time until the rest of the pattern matches. *)
Fixpoint greedy (p : ascii -> bool) (k : pystr -> option outcome)
         (s : pystr) : option outcome :=
  match s with
  | x :: s' =>
      if p x then
        match greedy p k s' with
        | Some o => Some o
        | None => k s
        end
      else k s
  | [] => k s
  end.

(** Lazy repetition: try the rest of the pattern first, take one more
    character only when it fails. *)
Fixpoint lazy (p : ascii -> bool) (k : pystr -> option outcome)
         (s : pystr) : option outcome :=
  match k s with
  | Some o => Some o
  | None =>
      match s with
      | x :: s' => if p x then lazy p k s' else None
      | [] => None
      end
  end.

(** The backtracking matcher, in continuation-passing style: [run r s g k]
    matches [r] at the front of [s] with the groups [g] set so far and
    hands the rest of the text to [k]; when [k] fails the next way of
    matching [r] is tried, in the order of the engine. *)
Fixpoint run (r : regex) (s : pystr) (g : caps)
         (k : pystr -> caps -> option outcome) : option outcome :=
  match r with
  | Eps => k s g
  | Chr c =>
      match s with
      | x :: s' => if chr_matches c x then k s' g else None
      | [] => None
      end
  | Star c => greedy (in_class c) (fun s' => k s' g) s
  | Plus c =>
      match s with
      | x :: s' =>
          if in_class c x then greedy (in_class c) (fun s' => k s' g) s'
          else None
      | [] => None
      end
  | PlusLazy c =>
      match s with
      | x :: s' =>
          if in_class c x then lazy (in_class c) (fun s' => k s' g) s'
          else None
      | [] => None
      end
  | Seq r1 r2 => run r1 s g (fun s' g' => run r2 s' g' k)
  | Alt r1 r2 =>
      match run r1 s g k with
      | Some o => Some o
      | None => run r2 s g k
      end
  | Group n r' =>
      run r' s g (fun s' g' => k s' (set_group n (consumed s s') g'))
  | Lookahead r' =>
      match run r' s g (fun s' g' => Some (s', g')) with
      | Some (_, g') => k s g'
      | None => None
      end
  | EndOfString =>
      match s with
      | [] => k s g
      | _ :: _ => None
      end
  end.

(** One match attempt at the front of [s]: the unmatched rest and the
    groups. *)
Definition exec (r : regex) (s : pystr) : option outcome :=
  run r s [] (fun s' g => Some (s', g)).

(** [re.findall]: scan left to right; after a match resume where it
    ended ([skip] counts the characters of the match still to pass).
    None of the program's patterns matches the empty string; an empty
    match would move on by one character. *)
Fixpoint findall_from (r : regex) (skip : nat) (s : pystr) : list caps :=
  match skip, s with
  | S n, _ :: s' => findall_from r n s'
  | S _, [] => []
  | O, [] =>
      match exec r [] with
      | Some (_, g) => [g]
      | None => []
      end
  | O, _ :: t =>
      match exec r s with
      | Some (s', g) => g :: findall_from r (length s - length s' - 1) t
      | None => findall_from r 0 t
      end
  end.

Definition findall (r : regex) (s : pystr) : list caps := findall_from r 0 s.

(** [re.search(...).start()]: the leftmost position where an attempt
    succeeds, counted from [i]. *)
Fixpoint search_from (r : regex) (i : nat) (s : pystr) : option nat :=
  match exec r s with
  | Some _ => Some i
  | None =>
      match s with
      | [] => None
      | _ :: s' => search_from r (S i) s'
      end
  end.

Definition search (r : regex) (s : pystr) : option nat := search_from r 0 s.

(** [re.sub(r, template, s)]: every match replaced by the expansion of
    the template, the text between matches kept. *)
Fixpoint sub_from (r : regex) (repl : caps -> pystr) (skip : nat)
         (s : pystr) : pystr :=
  match skip, s with
  | S n, _ :: s' => sub_from r repl n s'
  | S _, [] => []
  | O, [] =>
      match exec r [] with
      | Some (_, g) => repl g
      | None => []
      end
  | O, c :: t =>
      match exec r s with
      | Some (s', g) =>
          match length s - length s' with
          | O => repl g ++ c :: sub_from r repl 0 t
          | S n => repl g ++ sub_from r repl n t
          end
      | None => c :: sub_from r repl 0 t
      end
  end.

Definition sub (r : regex) (repl : caps -> pystr) (s : pystr) : pystr :=
  sub_from r repl 0 s.

End Matcher.

(** ** [parse_full_report] *)

Local Open Scope regex_scope.

(** re.DOTALL | re.IGNORECASE *)
Definition qa_flags : flags := {| IGNORECASE := true; DOTALL := true |}.

(** re.IGNORECASE *)
Definition split_flags : flags := {| IGNORECASE := true; DOTALL := false |}.

Definition no_flags : flags := {| IGNORECASE := false; DOTALL := false |}.

(** \n\s*Question:|\n\s*[0-9]+\.|\Z *)
Definition qa_stop_body : regex :=
      (Chr nl ;;; Star Space ;;; lit (py "Question:"))
  <|> (Chr nl ;;; Star Space ;;; Plus (Range "0" "9") ;;; Chr ".")
  <|> EndOfString.

(** (?=\n\s*Question:|\n\s*[0-9]+\.|\Z) *)
Definition qa_stop : regex := Lookahead qa_stop_body.

(** The pattern
    Question:\s*(.+?)\s*\n\s*Score:\s*(\d+)\s*\n\s*Comment:\s*(.+?)(?=...)
    in three pieces, last piece first. *)

(** \s*\n\s*Comment:\s*(.+?)(?=...) *)
Definition qa_comment_part : regex :=
  Star Space ;;; Chr nl ;;; Star Space ;;;
  lit (py "Comment:") ;;; Star Space ;;; Group 3 (PlusLazy AnyChar) ;;;
  qa_stop.

(** \s*\n\s*Score:\s*(\d+) and the rest *)
Definition qa_score_part : regex :=
  Star Space ;;; Chr nl ;;; Star Space ;;;
  lit (py "Score:") ;;; Star Space ;;; Group 2 (Plus Digit) ;;;
  qa_comment_part.

(** Question:\s*(.+?) and the rest *)
Definition qa_pattern : regex :=
  lit (py "Question:") ;;; Star Space ;;; Group 1 (PlusLazy AnyChar) ;;;
  qa_score_part.

(** (2\.\s*Overall Evaluation:|Overall Evaluation:) *)
Definition split_pattern : regex :=
  Group 1
    (    (lit (py "2.") ;;; Star Space ;;; lit (py "Overall Evaluation:"))
     <|> lit (py "Overall Evaluation:")).

Definition record := (pystr * Z * pystr)%type.

Definition rquestion (r : record) : pystr := fst (fst r).
Definition rscore (r : record) : Z := snd (fst r).
Definition rcomment (r : record) : pystr := snd r.

(** The tuples [(q, s, c)] that [re.findall] returns for a pattern with
    three groups. *)
Definition groups3 (g : caps) : pystr * pystr * pystr :=
  (group g 1, group g 2, group g 3).

Definition qa_matches (text : pystr) : list (pystr * pystr * pystr) :=
  map groups3 (findall qa_flags qa_pattern text).

(** The body of the loop over the matches. *)
Definition clean_match (m : pystr * pystr * pystr) : result record :=
  let '(q, s, c) := m in
  let q_clean := strip (replace (py "Your ") [] q) in
  let c_clean := replace (py "\n") (py " ") (strip c) in
  n <- int_py s ;;
  Ok (q_clean, n, c_clean).

(** The second half of [parse_full_report]: [split_match] and
    [remaining_text]. *)
Definition remaining_text_of (text : pystr) : pystr :=
  match search split_flags split_pattern text with
  | Some start_index => strip (skipn start_index text)
  | None => []
  end.

Definition parse_full_report (text : pystr) : result (list record * pystr) :=
  let matches := qa_matches text in
  structured_qa <- for_each clean_match matches ;;
  let remaining_text := remaining_text_of text in
  Ok (structured_qa, remaining_text).

(** The narrative of the specification's scenario. *)
Definition scenario_text : pystr :=
  py "Question: Your communication skills\nScore: 8\nComment: Excellent clarity\n\nOverall Evaluation: Strong candidate.\nStrengths: good\nWeaknesses: none\nFinal Recommendation: Hire".

(** ** Score colours, chart and table *)

Local Open Scope Z_scope.

Definition BOX_WIDTH : Z := 496.

(** The [if / elif / else] of the loop over the bars in
    [create_score_chart]. *)
Definition bar_fill (val : Z) : pystr :=
  if val <=? 3 then py "#e74c3c"
  else if val <=? 6 then py "#f1c40f"
  else py "#2ecc71".

(** The attributes [create_score_chart] sets on its [VerticalBarChart].
    [bars_fillColor] lists the assignments [bc.bars[i].fillColor = ...]
    by the index [i]: what the program asks for at the style index [i],
    not what the library draws.  In the charting library [bars[i]] is the
    style of the data series [i], and [bc_data] below holds one series. *)
Record bar_chart : Type := {
  bc_x : Z; bc_y : Z; bc_height : Z; bc_width : Z;
  bc_data : list (list Z);
  strokeColor : pystr;
  valueMin : Z; valueMax : Z;
  categoryNames : list pystr;
  labels_boxAnchor : pystr; labels_dy : Z;
  bars_fillColor : list pystr
}.

Record drawing : Type := {
  d_width : Z; d_height : Z;
  d_contents : list bar_chart
}.

Definition create_score_chart (parsed_data : list record) : option drawing :=
  match parsed_data with
  | [] => None
  | _ :: _ =>
      let data := map rscore parsed_data in
      let labels :=
        map (fun i => py "Q" ++ str_of_Z (Z.of_nat i + 1))
            (seq 0 (length data)) in
      let bc := {| bc_x := 20; bc_y := 20; bc_height := 80;
                   bc_width := BOX_WIDTH - 40;
                   bc_data := [data];
                   strokeColor := py "white";
                   valueMin := 0; valueMax := 10;
                   categoryNames := labels;
                   labels_boxAnchor := py "n"; labels_dy := -5;
                   bars_fillColor := map bar_fill data |} in
      Some {| d_width := BOX_WIDTH; d_height := 120; d_contents := [bc] |}
  end.

(** The four paragraph styles of the program, by name: 'TabNormal' and
    'TabHeader' in the table, 'Head' for the two headings, 'Body' for the
    remainder. *)
Inductive style : Type := TabNormal | TabHeader | Head | Body.

Record paragraph : Type := mk_paragraph { p_text : pystr; p_style : style }.

(** "green" if s > 6 else "orange" if s > 3 else "red" *)
Definition score_color (s : Z) : pystr :=
  if s >? 6 then py "green" else if s >? 3 then py "orange" else py "red".

(** f"<font color='{score_color}'><b>{s}/10</b></font>" *)
Definition score_markup (s : Z) : pystr :=
  py "<font color='" ++ score_color s ++ py "'><b>"
  ++ str_of_Z s ++ py "/10</b></font>".

(** One command of a [TableStyle]: its name, the two corner cells and
    its arguments as written. *)
Definition style_command := (pystr * (Z * Z) * (Z * Z) * list pystr)%type.

Record table : Type := {
  t_data : list (list paragraph);
  colWidths : list Z;
  repeatRows : Z;
  t_style : list style_command
}.

Definition qa_table_style : list style_command :=
  [ (py "BACKGROUND", (0, 0), (-1, 0), [py "#1F2A3C"]);
    (py "TEXTCOLOR", (0, 0), (-1, 0), [py "white"]);
    (py "ALIGN", (0, 0), (-1, -1), [py "LEFT"]);
    (py "ALIGN", (2, 0), (2, -1), [py "CENTER"]);
    (py "VALIGN", (0, 0), (-1, -1), [py "TOP"]);
    (py "GRID", (0, 0), (-1, -1), [py "0.5"; py "lightgrey"]);
    (py "BOX", (0, 0), (-1, -1), [py "1"; py "#1F2A3C"]);
    (py "PADDING", (0, 0), (-1, -1), [py "6"]) ].

Inductive flowable : Type :=
| NextPageTemplate (name : pystr)
| Para (p : paragraph)
| Spacer (w h : Z)
| Chart (d : drawing)
| Tbl (t : table)
| NoneItem.                      (* a None appended to the story *)

(** A replacement template of [re.sub]: text and group references. *)
Inductive titem : Type :=
| TText (s : pystr)
| TGroup (n : nat).

Fixpoint expand (t : list titem) (g : caps) : pystr :=
  match t with
  | [] => []
  | TText s :: t' => s ++ expand t' g
  | TGroup n :: t' => group g n ++ expand t' g
  end.

(** re.sub(r"(<phrase>)", <template>, fmt_text) *)
Definition sub_phrase (phrase : string) (t : list titem) (s : pystr) : pystr :=
  sub no_flags (Group 1 (lit (py phrase))) (expand t) s.

Definition bold : list titem := [TText (py "<b>"); TGroup 1; TText (py "</b>")].

Definition format_remaining (remaining_text : pystr) : pystr :=
  let fmt_text := replace (py "\n") (py "<br/>") remaining_text in
  let fmt_text := sub_phrase "Overall Evaluation:" bold fmt_text in
  let fmt_text :=
    sub_phrase "Final Recommendation:"
               (TText (py "<br/><br/>") :: bold) fmt_text in
  let fmt_text := sub_phrase "Strengths:" bold fmt_text in
  let fmt_text := sub_phrase "Weaknesses:" bold fmt_text in
  fmt_text.

(** Truth value of a list and of a [str]. *)
Definition nonempty {A} (l : list A) : bool :=
  match l with [] => false | _ :: _ => true end.

(** ** Paragraphs, the table and the story

    [Paragraph(text, style)] runs the markup parser of the layout library
    on [text] when it is called, and raises what the parser raises on a
    text it refuses (a [<b>] that is never closed, for one).  The parser
    is not part of the program: it is the parameter [markup_error], which
    gives the exception for a refused text and [None] for an accepted
    one. *)

Section Layout.

Variable markup_error : pystr -> style -> option exn.

Definition Paragraph (text : pystr) (st : style) : result paragraph :=
  match markup_error text st with
  | Some e => Raise e
  | None => Ok (mk_paragraph text st)
  end.

(** The body of the loop over the records in [create_qa_table]: the
    score paragraph is built first, then the question and the comment. *)
Definition qa_row (r : record) : result (list paragraph) :=
  let '(q, s, c) := r in
  score_para <- Paragraph (score_markup s) TabNormal ;;
  q_para <- Paragraph q TabNormal ;;
  c_para <- Paragraph c TabNormal ;;
  Ok [q_para; c_para; score_para].

Definition create_qa_table (parsed_qa : list record) : result (option table) :=
  match parsed_qa with
  | [] => Ok None
  | _ :: _ =>
      h_question <- Paragraph (py "Question") TabHeader ;;
      h_analysis <- Paragraph (py "Analysis / Feedback") TabHeader ;;
      h_score <- Paragraph (py "Score") TabHeader ;;
      rows <- for_each qa_row parsed_qa ;;
      Ok (Some {| t_data := [h_question; h_analysis; h_score] :: rows;
                  colWidths := [140; 286; 70];
                  repeatRows := 1;
                  t_style := qa_table_style |})
  end.

(** Step 4 of the handler: the story built from the parse result. *)
Definition build_story (qa_data : list record) (remaining_text : pystr)
  : result (list flowable) :=
  let story := [NextPageTemplate (py "Later")] in
  story <-
    (if nonempty qa_data then
       heading <- Paragraph (py "<b>Score Overview</b>") Head ;;
       let story := story ++ [Para heading] in
       match create_score_chart qa_data with
       | Some chart => Ok (story ++ [Chart chart; Spacer 1 15])
       | None => Ok story
       end
     else Ok story) ;;
  story <-
    (if nonempty qa_data then
       heading <- Paragraph (py "<b>Detailed Question Analysis</b>") Head ;;
       let story := story ++ [Para heading; Spacer 1 5] in
       table <- create_qa_table qa_data ;;
       Ok (story ++ [match table with
                     | Some t => Tbl t
                     | None => NoneItem
                     end;
                     Spacer 1 20])
     else Ok story) ;;
  if nonempty remaining_text then
    body <- Paragraph (format_remaining remaining_text) Body ;;
    Ok (story ++ [Para body])
  else Ok story.

End Layout.

(** ** The request handler *)

(** What [request.get_json()] yields: the parsed payload.  A float is
    named by its [repr], which tells floats apart; a dict is the list of
    its items, each key once. *)
Inductive json : Type :=
| JNull
| JBool (b : bool)
| JInt (n : Z)
| JFloat (float_repr : pystr)
| JStr (s : pystr)
| JArr (l : list json)
| JObj (m : list (pystr * json)).

(** type(v).__name__ *)
Definition type_name (j : json) : pystr :=
  match j with
  | JNull => py "NoneType"
  | JBool _ => py "bool"
  | JInt _ => py "int"
  | JFloat _ => py "float"
  | JStr _ => py "str"
  | JArr _ => py "list"
  | JObj _ => py "dict"
  end.

Fixpoint pystr_eqb (a b : pystr) : bool :=
  match a, b with
  | [], [] => true
  | x :: a', y :: b' => ascii_eqb x y && pystr_eqb a' b'
  | _, _ => false
  end.

(** [not req_data] is [negb (truthy req_data)]. *)
Definition truthy (j : json) : bool :=
  match j with
  | JNull => false
  | JBool b => b
  | JInt n => negb (n =? 0)
  | JFloat x => negb (pystr_eqb x (py "0.0") || pystr_eqb x (py "-0.0"))
  | JStr s => nonempty s
  | JArr l => nonempty l
  | JObj m => nonempty m
  end.

Fixpoint dict_get (key : pystr) (m : list (pystr * json)) : option json :=
  match m with
  | [] => None
  | (k, v) :: m' => if pystr_eqb key k then Some v else dict_get key m'
  end.

Fixpoint occurs (p s : pystr) : bool :=
  startswith p s || match s with [] => false | _ :: s' => occurs p s' end.

(** [field in req_data]: key of a dict, element of a list, substring of a
    [str]; the other values are not iterable. *)
Definition py_in (field : pystr) (j : json) : result bool :=
  match j with
  | JObj m => Ok (match dict_get field m with Some _ => true | None => false end)
  | JArr l =>
      Ok (existsb (fun v => match v with
                            | JStr s => pystr_eqb s field
                            | _ => false
                            end) l)
  | JStr s => Ok (occurs field s)
  | _ => Raise (TypeError (py "argument of type '" ++ type_name j
                           ++ py "' is not iterable"))
  end.

(** [req_data[key]] for a [str] key. *)
Definition subscript (j : json) (key : pystr) : result json :=
  match j with
  | JObj m =>
      match dict_get key m with
      | Some v => Ok v
      | None => Raise (KeyError key)
      end
  | JArr _ =>
      Raise (TypeError (py "list indices must be integers or slices, not str"))
  | JStr _ =>
      Raise (TypeError (py "string indices must be integers, not 'str'"))
  | _ => Raise (TypeError (py "'" ++ type_name j
                           ++ py "' object is not subscriptable"))
  end.

Definition required_fields : list pystr :=
  [py "candidate_name"; py "candidate_position"; py "date";
   py "interview_id"; py "ai_overview"].

(** The loop over [required_fields]: the first field that is not in
    [req_data], if any. *)
Fixpoint first_missing (req_data : json) (fields : list pystr)
  : result (option pystr) :=
  match fields with
  | [] => Ok None
  | field :: rest =>
      present <- py_in field req_data ;;
      if negb present then Ok (Some field) else first_missing req_data rest
  end.

(** [parse_full_report] applied to whatever [ai_overview] holds: [re]
    refuses anything that is not a [str]. *)
Definition parse_overview (ai_text : json) : result (list record * pystr) :=
  match ai_text with
  | JStr text => parse_full_report text
  | _ => Raise (TypeError (py "expected string or bytes-like object, got '"
                           ++ type_name ai_text ++ py "'"))
  end.

(** [str(e)]; a [KeyError] shows the [repr] of its key. *)
Definition exn_message (e : exn) : pystr :=
  match e with
  | ValueError m | TypeError m | HTTPException m | RenderError m => m
  | KeyError k => repr k
  end.

Inductive response (pdf : Type) : Type :=
| Jsonify (status : Z) (body : list (pystr * pystr))
| SendFile (data : pdf) (download_name mimetype : pystr).

Arguments Jsonify {pdf} status body.
Arguments SendFile {pdf} data download_name mimetype.

Section Handler.

(** The collaborators of the handler that lie outside the program: the
    markup parser behind [Paragraph], the layout engine behind
    [doc.build] (with [doc.candidate_data] set to the payload), which
    yields the bytes of the buffer or raises, and the formatting of a
    value inside an f-string. *)
Variable markup_error : pystr -> style -> option exn.
Variable pdf : Type.
Variable doc_build : json -> list flowable -> result pdf.
Variable format_value : json -> pystr.

Definition error_body (msg : pystr) : list (pystr * pystr) :=
  [(py "error", msg)].

Definition generate_report_api (get_json : result json) : response pdf :=
  let attempt : result (response pdf) :=
    req_data <- get_json ;;
    if negb (truthy req_data)
    then Ok (Jsonify 400 (error_body (py "No JSON data provided")))
    else
      missing <- first_missing req_data required_fields ;;
      match missing with
      | Some field =>
          Ok (Jsonify 400 (error_body (py "Missing field: " ++ field)))
      | None =>
          ai_text <- subscript req_data (py "ai_overview") ;;
          parsed <- parse_overview ai_text ;;
          let '(qa_data, remaining_text) := parsed in
          story <- build_story markup_error qa_data remaining_text ;;
          data <- doc_build req_data story ;;
          interview_id <- subscript req_data (py "interview_id") ;;
          Ok (SendFile data
                (py "Report_" ++ format_value interview_id ++ py ".pdf")
                (py "application/pdf"))
      end in
  match attempt with
  | Ok r => r
  | Raise e => Jsonify 500 (error_body (exn_message e))
  end.

End Handler.

Arguments generate_report_api markup_error {pdf} doc_build format_value get_json.

Local Close Scope Z_scope.

(** ** Colour bands

    The two colourings name their colours differently: the chart by hex
    value, the table by colour name.  Both are read as one of three
    bands. *)

Inductive band : Type := low | mid | high.

Definition band_of_fill (hex : pystr) : option band :=
  if pystr_eqb hex (py "#e74c3c") then Some low        (* red   *)
  else if pystr_eqb hex (py "#f1c40f") then Some mid   (* amber *)
  else if pystr_eqb hex (py "#2ecc71") then Some high  (* green *)
  else None.

Definition band_of_name (name : pystr) : option band :=
  if pystr_eqb name (py "red") then Some low
  else if pystr_eqb name (py "orange") then Some mid
  else if pystr_eqb name (py "green") then Some high
  else None.




(** A markup parser that accepts every text and a layout engine that
    always delivers, for closed instances of the handler. *)
Definition plain_markup (_ : pystr) (_ : style) : option exn := None.

(** A markup parser that refuses, as the library's does, a text in which
    a [<b>] is left open; the wording of its complaint is a stand-in. *)
Fixpoint count_of (p s : pystr) : nat :=
  (if startswith p s then 1 else 0) +
  match s with
  | [] => 0
  | _ :: s' => count_of p s'
  end.

Definition open_bold (text : pystr) : bool :=
  count_of (py "</b>") text <? count_of (py "<b>") text.

Definition strict_markup (text : pystr) (_ : style) : option exn :=
  if open_bold text then Some (ValueError (py "xml parser error")) else None.

Definition plain_build (_ : json) (story : list flowable)
  : result (list flowable) := Ok story.

(** [repr(v)] and [str(v)] of a parsed payload, the formatter of the
    closed instances. *)
Fixpoint json_repr (j : json) : pystr :=
  match j with
  | JNull => py "None"
  | JBool b => if b then py "True" else py "False"
  | JInt n => str_of_Z n
  | JFloat x => x
  | JStr s => repr s
  | JArr l => py "[" ++ join (py ", ") (map json_repr l) ++ py "]"
  | JObj m =>
      py "{" ++
      join (py ", ")
           (map (fun kv => repr (fst kv) ++ py ": " ++ json_repr (snd kv)) m)
      ++ py "}"
  end.

Definition plain_format (j : json) : pystr :=
  match j with JStr s => s | _ => json_repr j end.

(** ** What a match is

    [Matches fl r s g s' g'] says that [r] can match the front of [s],
    leaving [s'] and turning the groups [g] into [g'], with no word on
    which of several ways the engine prefers. *)

Inductive Matches (fl : flags)
  : regex -> pystr -> caps -> pystr -> caps -> Prop :=
| M_Eps s g : Matches fl Eps s g s g
| M_Chr c x s g :
    chr_matches fl c x = true -> Matches fl (Chr c) (x :: s) g s g
| M_Star k w s g :
    forallb (in_class fl k) w = true -> Matches fl (Star k) (w ++ s) g s g
| M_Plus k x w s g :
    forallb (in_class fl k) (x :: w) = true ->
    Matches fl (Plus k) (x :: w ++ s) g s g
| M_PlusLazy k x w s g :
    forallb (in_class fl k) (x :: w) = true ->
    Matches fl (PlusLazy k) (x :: w ++ s) g s g
| M_Seq r1 r2 s g s1 g1 s2 g2 :
    Matches fl r1 s g s1 g1 -> Matches fl r2 s1 g1 s2 g2 ->
    Matches fl (Seq r1 r2) s g s2 g2
| M_AltL r1 r2 s g s' g' :
    Matches fl r1 s g s' g' -> Matches fl (Alt r1 r2) s g s' g'
| M_AltR r1 r2 s g s' g' :
    Matches fl r2 s g s' g' -> Matches fl (Alt r1 r2) s g s' g'
| M_Group n r s g s' g' :
    Matches fl r s g s' g' ->
    Matches fl (Group n r) s g s' (set_group n (consumed s s') g')
| M_Lookahead r s g s' g' :
    Matches fl r s g s' g' -> Matches fl (Lookahead r) s g s g'
| M_EndOfString g : Matches fl EndOfString [] g [] g.

(** The value of a run of decimal digits, most significant first. *)
Definition digits_value (d : pystr) : Z :=
  fold_left (fun acc c => (10 * acc + digit_value c)%Z) d 0%Z.

(** The comment of a record, character by character: a line feed becomes
    a space. *)
Definition unbreak (c : ascii) : ascii :=
  if ascii_eqb c nl then " "%char else c.

(** The reading of the question the specification gives: one leading
    "Your " token stripped, then trimmed. *)
Definition strip_leading (token q : pystr) : pystr :=
  if startswith token q then skipn (length token) q else q.

Definition claimed_question (q : pystr) : pystr :=
  strip (strip_leading (py "Your ") q).

(** The record the loop body builds from a match [(q, s, c)], written
    with the value of the digits and the character-wise reading of the
    comment. *)
Definition record_of_match (m : pystr * pystr * pystr) : record :=
  let '(q, d, c) := m in
  (strip (replace (py "Your ") [] q), digits_value d, map unbreak (strip c)).

(** A score token that [int] accepts for its length. *)
Definition within_limit (d : pystr) : bool :=
  length d <=? int_max_str_digits.

Definition tokens_within_limit (text : pystr) : bool :=
  forallb (fun m : pystr * pystr * pystr => let '(_, d, _) := m in within_limit d)
          (qa_matches text).

(** The number of digits of the first score token beyond the limit. *)
Definition long_digits (ms : list (pystr * pystr * pystr)) : nat :=
  match find (fun m : pystr * pystr * pystr =>
                let '(_, d, _) := m in negb (within_limit d)) ms with
  | Some (_, d, _) => length d
  | None => 0
  end.


(** A narrative whose Score line carries a word instead of an integer. *)
Definition worded_score_text : pystr :=
  py "Question: Teamwork\nScore: high\nComment: fine".

Definition worded_score_payload : json :=
  JObj [(py "candidate_name", JStr (py "Ada"));
        (py "candidate_position", JStr (py "Engineer"));
        (py "date", JStr (py "2024-05-01"));
        (py "interview_id", JStr (py "42"));
        (py "ai_overview", JStr worded_score_text)].

(** The row of a record once its three paragraphs are built, and what
    the markup parser has to accept for the table to be built. *)
Definition row_of (r : record) : list paragraph :=
  [ mk_paragraph (rquestion r) TabNormal;
    mk_paragraph (rcomment r) TabNormal;
    mk_paragraph (score_markup (rscore r)) TabNormal ].

Definition row_accepted (markup_error : pystr -> style -> option exn)
           (r : record) : Prop :=
  markup_error (score_markup (rscore r)) TabNormal = None /\
  markup_error (rquestion r) TabNormal = None /\
  markup_error (rcomment r) TabNormal = None.

Definition header_accepted (markup_error : pystr -> style -> option exn)
  : Prop :=
  markup_error (py "Question") TabHeader = None /\
  markup_error (py "Analysis / Feedback") TabHeader = None /\
  markup_error (py "Score") TabHeader = None.

Definition headings_accepted (markup_error : pystr -> style -> option exn)
  : Prop :=
  markup_error (py "<b>Score Overview</b>") Head = None /\
  markup_error (py "<b>Detailed Question Analysis</b>") Head = None.

Definition is_switch (f : flowable) : bool :=
  match f with NextPageTemplate _ => true | _ => false end.

(** Eleven records, enough for the labels "Q1", "Q10" and "Q11". *)
Definition eleven_records : list record :=
  map (fun s => (py "q", s, py "c")) [1; 2; 3; 4; 5; 6; 7; 8; 9; 10; 0]%Z.



(** A narrative whose score has one digit more than [int] reads. *)
Definition long_score_text : pystr :=
  py "Question: a\nScore: " ++ repeat "1"%char 4301 ++ py "\nComment: b".

Definition long_score_payload : json :=
  JObj [(py "candidate_name", JStr (py "Ada"));
        (py "candidate_position", JStr (py "Engineer"));
        (py "date", JStr (py "2024-05-01"));
        (py "interview_id", JStr (py "42"));
        (py "ai_overview", JStr long_score_text)].

(** A question with "Your " in the middle. *)
Definition inner_your_text : pystr :=
  py "Question: Rate Your skills\nScore: 5\nComment: ok".

(** ** The evaluation marker *)

(** The front of [s] reads [phrase], letter case aside. *)
Definition starts_ci (phrase s : pystr) : bool :=
  pystr_eqb (map lower (firstn (length phrase) s)) (map lower phrase).

(** The marker the remainder starts at: "2.", any whitespace (none
    included), then "Overall Evaluation:"; or "Overall Evaluation:"
    alone. *)
Definition marker_at (s : pystr) : bool :=
  (starts_ci (py "2.") s &&
   starts_ci (py "Overall Evaluation:") (lstrip (skipn 2 s)))
  || starts_ci (py "Overall Evaluation:") s.

(** The first position of [text] that satisfies [f], the end included. *)
Definition first_position (f : pystr -> bool) (text : pystr) : option nat :=
  find (fun i => f (skipn i text)) (seq 0 (S (length text))).

Definition first_marker (text : pystr) : option nat :=
  first_position marker_at text.

(** The reading of the remainder the specification gives: the two marker
    texts taken to the letter. *)
Definition literal_marker_at (s : pystr) : bool :=
  starts_ci (py "2. Overall Evaluation:") s
  || starts_ci (py "Overall Evaluation:") s.

Definition claimed_remainder (text : pystr) : pystr :=
  match first_position literal_marker_at text with
  | Some i => strip (skipn i text)
  | None => []
  end.

Definition tight_marker_text : pystr := py "Summary\n2.Overall Evaluation: hire".

(** The characters of [p], each matched under the flags, at the front of
    [s]. *)
Fixpoint lit_front (fl : flags) (p s : pystr) : bool :=
  match p, s with
  | [], _ => true
  | c :: p', x :: s' => chr_matches fl c x && lit_front fl p' s'
  | _ :: _, [] => false
  end.

Definition is_some {A} (o : option A) : bool :=
  match o with Some _ => true | None => false end.

(** ** Well-formed narratives

    A block is three lines, "Question: <Q>", "Score: <integer>",
    "Comment: <C>": <Q> and <C> each a non-empty text without line feed
    and without whitespace at either end, the score a non-empty run of
    decimal digits that [int] accepts for its length. *)

Record block : Type := {
  b_question : pystr;
  b_score : pystr;
  b_comment : pystr
}.

Definition block_text (b : block) : pystr :=
  py "Question: " ++ b_question b ++
  py "\nScore: " ++ b_score b ++
  py "\nComment: " ++ b_comment b.

Definition no_newline (l : pystr) : bool :=
  forallb (fun c => negb (ascii_eqb c nl)) l.






(** [phrase] occurs somewhere in [s], letter case aside. *)
Fixpoint occurs_ci (phrase s : pystr) : bool :=
  starts_ci phrase s ||
  match s with
  | [] => false
  | _ :: s' => occurs_ci phrase s'
  end.



Definition narrative (intro sep : pystr) (bs : list block) (ending : pystr)
  : pystr :=
  intro ++ join sep (map block_text bs) ++ ending.



(** The class [p] does not take the first character of [s]. *)
Definition head_fails (p : ascii -> bool) (s : pystr) : Prop :=
  match s with
  | [] => True
  | x :: _ => p x = false
  end.




(** A narrative of two blocks between a heading and a numbered summary. *)
Definition sample_blocks : list block :=
  [ {| b_question := py "Your communication skills";
       b_score := py "8";
       b_comment := py "Excellent clarity" |};
    {| b_question := py "Team work";
       b_score := py "10";
       b_comment := py "Works well with others" |} ].

Definition sample_intro : pystr := py "1. Question Analysis\n\n".

Definition sample_ending : pystr := py "\n\n2. Overall Evaluation: Strong candidate.".

(** A narrative without any Question block, the summary alone. *)
Definition summary_only_text : pystr :=
  py "The interview went well.\nOverall Evaluation: Strong candidate.\nFinal Recommendation: Hire".

(** ** Page backgrounds

    The two [onPage] callbacks write on a canvas of the layout library;
    the canvas is modelled by the list of the calls made on it, in
    order.  What the callbacks ask of their surroundings is given by an
    [env]: the files present, and which of the calls that the source
    guards by [try] return rather than raise.  The other canvas calls
    are taken to return.  Messages printed on the way are left out. *)

Local Open Scope Z_scope.

(** A length as the source writes it; the sides of A4 are floats. *)
Inductive num : Type :=
| Lit (z : Z)
| PAGE_WIDTH
| PAGE_HEIGHT
| Sub (a b : num)
| Add (a b : num)
| Div (a b : num).

Definition TEMPLATE_PATH : pystr := py "template.png".
Definition PHOTO_URL_DEFAULT : pystr :=
  py "https://images.unsplash.com/photo-1507003211169-0a1dd7228f2d?ixlib=rb-1.2.1&auto=format&fit=facearea&facepad=2&w=256&h=256&q=80".
Definition FONT_PATH_REGULAR : pystr := py "IBMPlexSansDevanagari-Regular.ttf".
Definition FONT_NAME_REGULAR : pystr := py "IBMPlexSansDevanagari-Regular".

Inductive image : Type :=
| ImageFile (filename : pystr)        (* a file name given to drawImage *)
| ImageReader (src : json).           (* ImageReader(src), once loaded  *)

(** A path made by [canvas.beginPath()] and one call on it. *)
Inductive path : Type :=
| roundRect (x y width height radius : num)
| circle (x_cen y_cen r : num).

Inductive canvas_op : Type :=
| saveState
| restoreState
| drawImage (img : image) (x y width height : num) (mask : option pystr)
| setFillColor (colour : pystr)
| setFont (name : pystr) (size : Z)
| drawString (x y : num) (text : pystr)
| drawRightString (x y : num) (text : pystr)
| clipPath (p : path).                (* stroke=0 *)

Record env : Type := {
  path_exists : pystr -> bool;        (* os.path.exists                *)
  font_loads : pystr -> bool;         (* registerFont(TTFont(..)) returns *)
  image_loads : json -> bool;         (* ImageReader(src) returns      *)
  draws : image -> bool;              (* canvas.drawImage(img, ..) returns *)
  value_str : json -> pystr           (* str(v), and v inside an f-string *)
}.

Definition register_custom_fonts (w : env) : bool :=
  let font_available := false in
  if path_exists w FONT_PATH_REGULAR then
    if font_loads w FONT_PATH_REGULAR then true else font_available
  else font_available.

(** str(data.get(key, '')) *)
Definition field_text (w : env) (data : list (pystr * json)) (key : string)
  : pystr :=
  match dict_get (py key) data with
  | Some v => value_str w v
  | None => []
  end.

(** Steps 1 to 3 of [draw_first_page_bg], which the two files share but
    for the text put before the interview id. *)
Definition first_page_text (w : env) (data : list (pystr * json))
           (id_prefix : pystr) : list canvas_op :=
  let canvas := [saveState] in
  let canvas :=
    if path_exists w TEMPLATE_PATH then
      if draws w (ImageFile TEMPLATE_PATH) then
        canvas ++ [drawImage (ImageFile TEMPLATE_PATH) (Lit 0) (Lit 0)
                             PAGE_WIDTH PAGE_HEIGHT None]
      else canvas
    else canvas in
  let has_custom_font := register_custom_fonts w in
  let '(main_font, name_font) :=
    if has_custom_font then (FONT_NAME_REGULAR, FONT_NAME_REGULAR)
    else (py "Helvetica", py "Helvetica-Bold") in
  canvas ++
  [ setFillColor (py "white");
    setFont name_font 14;
    drawString (Lit 43) (Sub (Sub PAGE_HEIGHT (Lit 125)) (Lit 12))
               (field_text w data "candidate_name");
    setFont main_font 11;
    drawString (Lit 43) (Sub (Sub PAGE_HEIGHT (Lit 147)) (Lit 10))
               (field_text w data "candidate_position");
    setFont main_font 10;
    drawString (Lit 43) (Sub (Sub PAGE_HEIGHT (Lit 165)) (Lit 10))
               (field_text w data "date");
    drawString (Lit 43) (Sub (Sub PAGE_HEIGHT (Lit 180)) (Lit 10))
               (id_prefix ++ field_text w data "interview_id") ].

(** data.get('photo_url', None) *)
Definition user_photo_of (data : list (pystr * json)) : json :=
  match dict_get (py "photo_url") data with
  | Some v => v
  | None => JNull
  end.

(** The image chosen by step 4 of app.py: the user's, else the default
    one, else none. *)
Definition image_to_draw (w : env) (data : list (pystr * json))
  : option image :=
  let user_photo := user_photo_of data in
  let image_to_draw :=
    if truthy user_photo then
      if image_loads w user_photo then Some (ImageReader user_photo)
      else None
    else None in
  match image_to_draw with
  | Some img => Some img
  | None =>
      if nonempty PHOTO_URL_DEFAULT then
        if image_loads w (JStr PHOTO_URL_DEFAULT)
        then Some (ImageReader (JStr PHOTO_URL_DEFAULT))
        else None
      else None
  end.

(** app.py, with [doc.candidate_data] a dict. *)
Definition draw_first_page_bg (w : env) (candidate_data : list (pystr * json))
  : list canvas_op :=
  let data := candidate_data in
  let canvas := first_page_text w data [] in
  let img_x := Lit 465 in
  let img_w := Lit 84 in
  let img_h := Lit 91 in
  let img_y_top := Lit 108 in
  let img_y_rl := Sub (Sub PAGE_HEIGHT img_y_top) img_h in
  let radius := Lit 5 in
  let canvas :=
    match image_to_draw w data with
    | Some img =>
        let canvas :=
          canvas ++ [saveState;
                     clipPath (roundRect img_x img_y_rl img_w img_h radius)] in
        if draws w img then
          canvas ++ [drawImage img img_x img_y_rl img_w img_h None;
                     restoreState]
        else canvas
    | None => canvas
    end in
  canvas ++ [restoreState].

Definition draw_later_pages_bg (page : Z) : list canvas_op :=
  [ saveState;
    setFont (py "Helvetica") 9;
    setFillColor (py "black");
    drawRightString (Sub PAGE_WIDTH (Lit 40)) (Lit 30)
                    (py "Page " ++ str_of_Z page);
    restoreState ].

(** main.py draws the first page with another step 4. *)
Module MainPy.

Definition draw_first_page_bg (w : env) (candidate_data : list (pystr * json))
  : list canvas_op :=
  let data := candidate_data in
  let canvas := first_page_text w data (py "ID: ") in
  let img_x := Sub PAGE_WIDTH (Lit 120) in
  let img_y := Sub PAGE_HEIGHT (Lit 120) in
  let img_size := Lit 80 in
  let canvas :=
    let p_url :=
      match dict_get (py "photo_url") data with
      | Some v => v
      | None => JStr PHOTO_URL_DEFAULT
      end in
    let p_url := if negb (truthy p_url) then JStr PHOTO_URL_DEFAULT else p_url in
    if image_loads w p_url then
      let img := ImageReader p_url in
      let canvas :=
        canvas ++ [clipPath (circle (Add img_x (Div img_size (Lit 2)))
                                    (Add img_y (Div img_size (Lit 2)))
                                    (Div img_size (Lit 2)))] in
      if draws w img then
        canvas ++ [drawImage img img_x img_y img_size img_size
                             (Some (py "auto"))]
      else canvas
    else canvas in
  canvas ++ [restoreState].

End MainPy.

(** The saved graphics states still open at the end of a list of calls. *)
Definition open_states (ops : list canvas_op) : Z :=
  fold_left (fun n op =>
               match op with
               | saveState => n + 1
               | restoreState => n - 1
               | _ => n
               end) ops 0.

Definition is_photo (op : canvas_op) : bool :=
  match op with
  | drawImage (ImageReader _) _ _ _ _ _ => true
  | _ => false
  end.

Definition text_of (op : canvas_op) : option pystr :=
  match op with
  | drawString _ _ text => Some text
  | drawRightString _ _ text => Some text
  | _ => None
  end.

Fixpoint texts (ops : list canvas_op) : list pystr :=
  match ops with
  | [] => []
  | op :: ops' =>
      match text_of op with
      | Some t => t :: texts ops'
      | None => texts ops'
      end
  end.

(** Surroundings for closed instances: no file on disk, [load] says
    which sources load, [draw] whether a loaded image can be drawn. *)
Definition bare_env (load : json -> bool) (draw : bool) : env :=
  {| path_exists := fun _ => false;
     font_loads := fun _ => false;
     image_loads := load;
     draws := fun _ => draw;
     value_str := plain_format |}.

Definition is_default_photo (j : json) : bool :=
  match j with
  | JStr s => pystr_eqb s PHOTO_URL_DEFAULT
  | _ => false
  end.

Definition sample_candidate : list (pystr * json) :=
  [ (py "candidate_name", JStr (py "Asha Rao"));
    (py "interview_id", JStr (py "42"));
    (py "photo_url", JStr (py "https://example.org/asha.png")) ].

Local Close Scope Z_scope.

Local Open Scope Z_scope.

Fixpoint fonts (ops : list canvas_op) : list (pystr * Z) :=
  match ops with
  | [] => []
  | setFont name size :: ops' => (name, size) :: fonts ops'
  | _ :: ops' => fonts ops'
  end.

(** Surroundings in which every file is present and every call returns. *)
Definition full_env : env :=
  {| path_exists := fun _ => true;
     font_loads := fun _ => true;
     image_loads := fun _ => true;
     draws := fun _ => true;
     value_str := plain_format |}.

Local Close Scope Z_scope.

(** * Properties *)

Local Open Scope Z_scope.

(** ** The scenario of the specification *)


(** ** Score colours *)

Lemma bar_fill_cases (val : Z) :
  (val <= 3 /\ bar_fill val = py "#e74c3c") \/
  (3 < val <= 6 /\ bar_fill val = py "#f1c40f") \/
  (6 < val /\ bar_fill val = py "#2ecc71").
Proof.
  unfold bar_fill.
  destruct (Z.leb_spec val 3); [left; split; [lia | reflexivity] | right].
  destruct (Z.leb_spec val 6); [left | right]; split; (lia || reflexivity).
Qed.

Lemma score_color_cases (s : Z) :
  (s <= 3 /\ score_color s = py "red") \/
  (3 < s <= 6 /\ score_color s = py "orange") \/
  (6 < s /\ score_color s = py "green").
Proof.
  unfold score_color.
  destruct (Z.gtb_spec s 6); [right; right; split; [lia | reflexivity] | ].
  destruct (Z.gtb_spec s 3); [right; left | left]; split; (lia || reflexivity).
Qed.

(** C5: in the chart and in the table alike a score of at most 3 is in
    the low band (red), a score above 3 and at most 6 in the mid band
    (amber in the chart, orange in the table), a score above 6 in the
    high band (green). *)
Theorem score_color_thresholds (s : Z) :
  (s <= 3 ->
     bar_fill s = py "#e74c3c" /\ score_color s = py "red" /\
     band_of_fill (bar_fill s) = Some low /\
     band_of_name (score_color s) = Some low) /\
  (3 < s <= 6 ->
     bar_fill s = py "#f1c40f" /\ score_color s = py "orange" /\
     band_of_fill (bar_fill s) = Some mid /\
     band_of_name (score_color s) = Some mid) /\
  (6 < s ->
     bar_fill s = py "#2ecc71" /\ score_color s = py "green" /\
     band_of_fill (bar_fill s) = Some high /\
     band_of_name (score_color s) = Some high).
Proof.
  destruct (bar_fill_cases s) as [[Hb ->] | [[Hb ->] | [Hb ->]]];
    destruct (score_color_cases s) as [[Hc ->] | [[Hc ->] | [Hc ->]]];
    try lia; repeat split; intros; try lia; reflexivity.
Qed.

(** C5 at the boundaries: 3 is low, 4 and 6 are mid, 7 is high. *)
Lemma score_color_thresholds_witness :
  (band_of_fill (bar_fill 3) = Some low /\
   band_of_name (score_color 3) = Some low) /\
  (band_of_fill (bar_fill 4) = Some mid /\
   band_of_name (score_color 4) = Some mid) /\
  (band_of_fill (bar_fill 6) = Some mid /\
   band_of_name (score_color 6) = Some mid) /\
  (band_of_fill (bar_fill 7) = Some high /\
   band_of_name (score_color 7) = Some high).
Proof.
  split; [| split; [| split]].
  - split; apply (proj1 (score_color_thresholds 3)); lia.
  - split; apply (proj1 (proj2 (score_color_thresholds 4))); lia.
  - split; apply (proj1 (proj2 (score_color_thresholds 6))); lia.
  - split; apply (proj2 (proj2 (score_color_thresholds 7))); lia.
Defined.

(** C6: at every integer score the band of the chart's bar colour is the
    band of the table's score colour. *)
Theorem chart_table_bands_agree (s : Z) :
  band_of_fill (bar_fill s) = band_of_name (score_color s) /\
  band_of_fill (bar_fill s) <> None.
Proof.
  destruct (bar_fill_cases s) as [[Hb ->] | [[Hb ->] | [Hb ->]]];
    destruct (score_color_cases s) as [[Hc ->] | [[Hc ->] | [Hc ->]]];
    try lia; split; (reflexivity || discriminate).
Qed.

(** ** The story for an empty record sequence *)

Section EmptyStory.

Variable markup_error : pystr -> style -> option exn.


End EmptyStory.



(** ** Request validation *)

Section Validation.

Variable markup_error : pystr -> style -> option exn.
Variable pdf : Type.
Variable doc_build : json -> list flowable -> result pdf.
Variable format_value : json -> pystr.

Lemma first_missing_dict (m : list (pystr * json)) (before after : list pystr)
      (field : pystr) :
  forallb (fun f => match dict_get f m with Some _ => true | None => false end)
          before = true ->
  dict_get field m = None ->
  first_missing (JObj m) (before ++ field :: after) = Ok (Some field).
Proof.
  induction before as [| f before IH]; simpl; intros Hb Hf.
  - rewrite Hf. reflexivity.
  - apply andb_prop in Hb. destruct Hb as [Hf' Hb].
    destruct (dict_get f m); [| discriminate]. simpl. auto.
Qed.

(** C9, amended: for a non-empty JSON object in which a required field
    is absent the handler answers 400 with "Missing field: <name>",
    where <name> is the first absent field in the order candidate_name,
    candidate_position, date, interview_id, ai_overview; no document is
    produced. *)
Theorem missing_field_reported (m : list (pystr * json))
        (before after : list pystr) (field : pystr) :
  nonempty m = true ->
  required_fields = before ++ field :: after ->
  forallb (fun f => match dict_get f m with Some _ => true | None => false end)
          before = true ->
  dict_get field m = None ->
  generate_report_api markup_error doc_build format_value (Ok (JObj m)) =
  Jsonify 400 (error_body (py "Missing field: " ++ field)).
Proof.
  intros Hm Hreq Hb Hf. unfold generate_report_api.
  cbn [bind truthy]. rewrite Hm. cbn [negb].
  rewrite Hreq, (first_missing_dict m before after field Hb Hf).
  reflexivity.
Qed.

(** C10: the empty JSON object, though present and parseable and
    lacking every required field, is answered with "No JSON data
    provided" and not with a "Missing field" error. *)
Theorem empty_object_no_json_data :
  generate_report_api markup_error doc_build format_value (Ok (JObj [])) =
  Jsonify 400 (error_body (py "No JSON data provided")) /\
  forallb (fun f => match dict_get f [] with Some _ => false | None => true end)
          required_fields = true /\
  forall field,
    generate_report_api markup_error doc_build format_value (Ok (JObj [])) <>
    Jsonify 400 (error_body (py "Missing field: " ++ field)).
Proof.
  split; [reflexivity | split; [reflexivity |]].
  intros field H. cbv in H. discriminate H.
Qed.

End Validation.

Lemma missing_field_reported_witness :
  generate_report_api plain_markup plain_build plain_format
    (Ok (JObj [(py "candidate_name", JStr (py "Ada"));
               (py "date", JStr (py "2024-05-01"))])) =
  Jsonify 400 (error_body (py "Missing field: candidate_position")).
Proof.
  apply (missing_field_reported plain_markup (list flowable) plain_build plain_format
           [(py "candidate_name", JStr (py "Ada"));
            (py "date", JStr (py "2024-05-01"))]
           [py "candidate_name"]
           [py "date"; py "interview_id"; py "ai_overview"]
           (py "candidate_position")); reflexivity.
Defined.

(** C9 as stated fails at the empty object: all five required fields are
    absent, yet the answer names none of them. *)
Lemma empty_payload_names_no_field :
  forallb (fun f => match dict_get f [] with Some _ => false | None => true end)
          required_fields = true /\
  generate_report_api plain_markup plain_build plain_format (Ok (JObj [])) =
  Jsonify 400 (error_body (py "No JSON data provided")) /\
  ~ exists field,
      generate_report_api plain_markup plain_build plain_format (Ok (JObj [])) =
      Jsonify 400 (error_body (py "Missing field: " ++ field)).
Proof.
  split; [reflexivity | split; [reflexivity |]].
  intros [field H]. cbv in H. discriminate H.
Qed.

(** ** The matcher finds only matches *)

Section MatcherSound.

Variable fl : flags.

Lemma greedy_sound (p : ascii -> bool) (k : pystr -> option outcome)
      (s : pystr) (o : outcome) :
  greedy p k s = Some o ->
  exists w s', s = w ++ s' /\ forallb p w = true /\ k s' = Some o.
Proof.
  induction s as [| x s IH]; simpl; intros H.
  - exists [], []. auto.
  - destruct (p x) eqn:Hp.
    + destruct (greedy p k s) as [o' |] eqn:Hg.
      * injection H as <-. destruct (IH eq_refl) as (w & s' & -> & Hw & Hk).
        exists (x :: w), s'. simpl. rewrite Hp, Hw. auto.
      * exists [], (x :: s). auto.
    + exists [], (x :: s). auto.
Qed.

Lemma lazy_sound (p : ascii -> bool) (k : pystr -> option outcome)
      (s : pystr) (o : outcome) :
  lazy p k s = Some o ->
  exists w s', s = w ++ s' /\ forallb p w = true /\ k s' = Some o.
Proof.
  induction s as [| x s IH]; simpl; intros H.
  - destruct (k []) eqn:Hk; [| discriminate].
    exists [], []. rewrite Hk. auto.
  - destruct (k (x :: s)) eqn:Hk.
    + exists [], (x :: s). rewrite Hk. auto.
    + destruct (p x) eqn:Hp; [| discriminate].
      destruct (IH H) as (w & s' & -> & Hw & Hk').
      exists (x :: w), s'. simpl. rewrite Hp, Hw. auto.
Qed.

Theorem run_sound (r : regex) :
  forall s g k o,
    run fl r s g k = Some o ->
    exists s' g', Matches fl r s g s' g' /\ k s' g' = Some o.
Proof.
  induction r as [| c | c | c | c | r1 IH1 r2 IH2 | r1 IH1 r2 IH2
                  | n r IH | r IH |]; simpl; intros s g k o H.
  - exists s, g. split; [constructor | exact H].
  - destruct s as [| x s]; [discriminate |].
    destruct (chr_matches fl c x) eqn:Hc; [| discriminate].
    exists s, g. split; [constructor; exact Hc | exact H].
  - apply greedy_sound in H. destruct H as (w & s' & -> & Hw & Hk).
    exists s', g. split; [constructor; exact Hw | exact Hk].
  - destruct s as [| x s]; [discriminate |].
    destruct (in_class fl c x) eqn:Hc; [| discriminate].
    apply greedy_sound in H. destruct H as (w & s' & -> & Hw & Hk).
    exists s', g. split; [| exact Hk].
    constructor. simpl. rewrite Hc, Hw. reflexivity.
  - destruct s as [| x s]; [discriminate |].
    destruct (in_class fl c x) eqn:Hc; [| discriminate].
    apply lazy_sound in H. destruct H as (w & s' & -> & Hw & Hk).
    exists s', g. split; [| exact Hk].
    constructor. simpl. rewrite Hc, Hw. reflexivity.
  - apply IH1 in H. destruct H as (s1 & g1 & M1 & H).
    apply IH2 in H. destruct H as (s2 & g2 & M2 & H).
    exists s2, g2. split; [econstructor; eassumption | exact H].
  - destruct (run fl r1 s g k) as [o1 |] eqn:H1.
    + injection H as <-. apply IH1 in H1. destruct H1 as (s' & g' & M & Hk).
      exists s', g'. split; [apply M_AltL; exact M | exact Hk].
    + apply IH2 in H. destruct H as (s' & g' & M & Hk).
      exists s', g'. split; [apply M_AltR; exact M | exact Hk].
  - apply IH in H. destruct H as (s' & g' & M & Hk).
    exists s', (set_group n (consumed s s') g').
    split; [constructor; exact M | exact Hk].
  - destruct (run fl r s g (fun s' g' => Some (s', g'))) as [[s1 g1] |] eqn:H1;
      [| discriminate].
    apply IH in H1. destruct H1 as (s' & g' & M & Hk).
    injection Hk as -> ->.
    exists s, g1. split; [econstructor; exact M | exact H].
  - destruct s; [| discriminate].
    exists [], g. split; [constructor | exact H].
Qed.

Corollary exec_sound (r : regex) (s s' : pystr) (g : caps) :
  exec fl r s = Some (s', g) -> Matches fl r s [] s' g.
Proof.
  intros H. apply run_sound in H. destruct H as (s1 & g1 & M & E).
  injection E as -> ->. exact M.
Qed.

End MatcherSound.

(** ** What a match of the question pattern looks like *)

Lemma consumed_app (u s : pystr) : consumed (u ++ s) s = u.
Proof.
  unfold consumed. rewrite length_app, Nat.add_sub.
  rewrite firstn_app, Nat.sub_diag, firstn_all. simpl. apply app_nil_r.
Qed.

Ltac inv_matches :=
  repeat match goal with
         | H : Matches _ (Seq _ _) _ _ _ _ |- _ => inversion H; clear H; subst
         | H : Matches _ (Chr _) _ _ _ _ |- _ => inversion H; clear H; subst
         | H : Matches _ (Star _) _ _ _ _ |- _ => inversion H; clear H; subst
         | H : Matches _ (Plus _) _ _ _ _ |- _ => inversion H; clear H; subst
         | H : Matches _ (PlusLazy _) _ _ _ _ |- _ => inversion H; clear H; subst
         | H : Matches _ (Group _ _) _ _ _ _ |- _ => inversion H; clear H; subst
         | H : Matches _ (Alt _ _) _ _ _ _ |- _ => inversion H; clear H; subst
         | H : Matches _ (Lookahead _) _ _ _ _ |- _ => inversion H; clear H; subst
         | H : Matches _ EndOfString _ _ _ _ |- _ => inversion H; clear H; subst
         | H : Matches _ Eps _ _ _ _ |- _ => inversion H; clear H; subst
         end.

(** Every match of the question pattern sets the three groups to
    non-empty texts, the second one made of decimal digits only. *)
Lemma qa_exec_groups (s s' : pystr) (g : caps) :
  exec qa_flags qa_pattern s = Some (s', g) ->
  exists q d c,
    g = [(3, c); (2, d); (1, q)]%nat /\
    q <> [] /\ c <> [] /\ d <> [] /\ forallb isdigit d = true.
Proof.
  intros H. apply exec_sound in H.
  cbv [qa_pattern qa_score_part qa_comment_part qa_stop qa_stop_body lit py] in H.
  inv_matches;
    repeat match goal with
           | |- context [consumed (?x :: ?w ++ ?s) ?s] =>
               change (x :: w ++ s) with ((x :: w) ++ s);
               rewrite (consumed_app (x :: w) s)
           end;
    (eexists; eexists; eexists; split; [reflexivity |]);
    repeat split; try discriminate;
    match goal with
    | H : forallb (in_class _ Digit) _ = true |- _ => exact H
    end.
Qed.

Ltac all_chars x := destruct x as [[|] [|] [|] [|] [|] [|] [|] [|]].

Section FindallSound.

Variable fl : flags.
Variable r : regex.
Variable P : caps -> Prop.
Hypothesis exec_P : forall s s' g, exec fl r s = Some (s', g) -> P g.

Lemma findall_from_Forall (s : pystr) :
  forall skip, Forall P (findall_from fl r skip s).
Proof.
  induction s as [| x s IH]; intros [| n]; simpl; auto.
  - destruct (exec fl r []) as [[s' g] |] eqn:E; auto.
    constructor; [eapply exec_P; eassumption | constructor].
  - destruct (exec fl r (x :: s)) as [[s' g] |] eqn:E; auto.
    constructor; [eapply exec_P; eassumption | apply IH].
Qed.

End FindallSound.

(** ** Score tokens *)

Lemma digit_not_space (x : ascii) : isdigit x = true -> isspace x = false.
Proof. all_chars x; vm_compute; congruence. Qed.

Lemma lstrip_digits (d : pystr) : forallb isdigit d = true -> lstrip d = d.
Proof.
  destruct d as [| x d]; simpl; auto. intros H.
  apply andb_prop in H. destruct H as [H _].
  rewrite (digit_not_space x H). reflexivity.
Qed.

Lemma forallb_rev {A} (f : A -> bool) (l : list A) :
  forallb f (rev l) = forallb f l.
Proof.
  induction l as [| a l IH]; simpl; auto.
  rewrite forallb_app, IH. simpl. rewrite andb_true_r. apply andb_comm.
Qed.

Lemma strip_digits (d : pystr) : forallb isdigit d = true -> strip d = d.
Proof.
  intros H. unfold strip, rstrip. rewrite (lstrip_digits d H).
  rewrite lstrip_digits by (rewrite forallb_rev; exact H).
  apply rev_involutive.
Qed.

Lemma int_scan_digits (s d : pystr) :
  forallb isdigit d = true ->
  forall acc n,
    (0 < n + length d)%nat ->
    (n + length d <= int_max_str_digits)%nat ->
    int_scan s acc n false d =
    Ok (fold_left (fun a c => (10 * a + digit_value c)%Z) d acc).
Proof.
  induction d as [| x d IH]; cbn [forallb int_scan fold_left length];
    intros H acc n Hpos Hlen.
  - unfold int_finish. cbn [negb].
    destruct (Nat.ltb_spec int_max_str_digits n) as [Hlt | _]; [lia |].
    destruct n; [lia | reflexivity].
  - apply andb_prop in H. destruct H as [Hx Hd]. rewrite Hx.
    apply IH; [exact Hd | lia | lia].
Qed.

Lemma int_scan_too_long (s d : pystr) :
  forallb isdigit d = true ->
  forall acc n,
    (int_max_str_digits < n + length d)%nat ->
    int_scan s acc n false d = Raise (exceeds_limit (n + length d)).
Proof.
  induction d as [| x d IH]; cbn [forallb int_scan length];
    intros H acc n Hlen.
  - unfold int_finish. rewrite Nat.add_0_r in *.
    destruct (Nat.ltb_spec int_max_str_digits n) as [_ | Hge]; [reflexivity | lia].
  - apply andb_prop in H. destruct H as [Hx Hd]. rewrite Hx.
    rewrite IH; [| exact Hd | lia]. do 2 f_equal. lia.
Qed.

Lemma int_py_scan (d : pystr) :
  d <> [] -> forallb isdigit d = true ->
  int_py d = int_scan d 0 0 false d.
Proof.
  intros Hn Hd. unfold int_py. rewrite (strip_digits d Hd).
  destruct d as [| x d]; [congruence |].
  assert (Hx : isdigit x = true) by (simpl in Hd; apply andb_prop in Hd; tauto).
  all_chars x; try (vm_compute in Hx; discriminate Hx);
    cbv iota beta; unfold bind;
    match goal with
    | |- context [int_scan ?s0 0 0 false ?l] => destruct (int_scan s0 0 0 false l)
    end; reflexivity.
Qed.

(** [int] succeeds on every non-empty run of decimal digits within the
    limit, and on such a run it fails for its length only. *)
Lemma int_py_digits (d : pystr) :
  d <> [] -> forallb isdigit d = true ->
  (length d <= int_max_str_digits)%nat ->
  int_py d = Ok (digits_value d).
Proof.
  intros Hn Hd Hl. rewrite (int_py_scan d Hn Hd).
  apply int_scan_digits; [exact Hd | | exact Hl].
  destruct d; [congruence | simpl; lia].
Qed.

Lemma int_py_long (d : pystr) :
  d <> [] -> forallb isdigit d = true ->
  (int_max_str_digits < length d)%nat ->
  int_py d = Raise (exceeds_limit (length d)).
Proof.
  intros Hn Hd Hl. rewrite (int_py_scan d Hn Hd).
  apply (int_scan_too_long d d Hd 0 0%nat). exact Hl.
Qed.

Lemma qa_matches_shape (text : pystr) :
  Forall (fun m => let '(q, d, c) := m in
                   q <> [] /\ c <> [] /\ d <> [] /\ forallb isdigit d = true)
         (qa_matches text).
Proof.
  unfold qa_matches, findall. apply Forall_map.
  apply findall_from_Forall.
  intros s s' g H. apply qa_exec_groups in H.
  destruct H as (q & d & c & -> & H). exact H.
Qed.

(** ** [str.replace] *)

Lemma replace_one_char (a b : ascii) (s : pystr) :
  replace [a] [b] s = map (fun c => if ascii_eqb a c then b else c) s.
Proof.
  unfold replace. induction s as [| c s IH]; simpl; auto.
  rewrite andb_true_r. destruct (ascii_eqb a c); simpl; rewrite IH; reflexivity.
Qed.

Lemma replace_newlines (s : pystr) :
  replace (py "\n") (py " ") s = map unbreak s.
Proof.
  change (py "\n") with [nl]. change (py " ") with [" "%char].
  rewrite replace_one_char. apply map_ext. intros c. unfold unbreak, ascii_eqb.
  rewrite Ascii.eqb_sym. reflexivity.
Qed.

Lemma replace_absent (old new s : pystr) :
  occurs old s = false -> replace old new s = s.
Proof.
  unfold replace. induction s as [| c s IH]; simpl; auto.
  intros H. apply orb_false_elim in H. destruct H as [H1 H2].
  destruct old as [| o old]; [discriminate |].
  simpl in H1 |- *. rewrite H1. f_equal. apply IH. exact H2.
Qed.

Lemma startswith_app (p s : pystr) : startswith p (p ++ s) = true.
Proof.
  induction p as [| a p IH]; simpl; auto.
  unfold ascii_eqb. rewrite Ascii.eqb_refl. exact IH.
Qed.

Lemma replace_from_skip (old new u s : pystr) :
  replace_from old new (length u) (u ++ s) = replace_from old new 0 s.
Proof.
  induction u as [| a u IH]; simpl; auto.
Qed.

Lemma replace_leading (o : ascii) (old new s : pystr) :
  replace (o :: old) new ((o :: old) ++ s) = new ++ replace (o :: old) new s.
Proof.
  unfold replace. cbn [app replace_from].
  change (o :: old ++ s) with ((o :: old) ++ s).
  rewrite startswith_app. cbn [length].
  replace (S (length old) - 1)%nat with (length old) by lia.
  rewrite replace_from_skip. reflexivity.
Qed.

(** ** The parse in closed form *)

Lemma int_py_token (d : pystr) :
  d <> [] -> forallb isdigit d = true ->
  int_py d = if within_limit d then Ok (digits_value d)
             else Raise (exceeds_limit (length d)).
Proof.
  intros Hn Hd. unfold within_limit.
  destruct (Nat.leb_spec (length d) int_max_str_digits) as [Hl | Hl].
  - apply int_py_digits; assumption.
  - apply int_py_long; assumption.
Qed.

Lemma clean_match_token (m : pystr * pystr * pystr) :
  snd (fst m) <> [] -> forallb isdigit (snd (fst m)) = true ->
  clean_match m =
  if within_limit (snd (fst m)) then Ok (record_of_match m)
  else Raise (exceeds_limit (length (snd (fst m)))).
Proof.
  destruct m as [[q d] c]. cbn [fst snd]. intros Hn Hd.
  unfold clean_match, record_of_match.
  rewrite (int_py_token d Hn Hd), replace_newlines.
  destruct (within_limit d); reflexivity.
Qed.

Lemma for_each_clean (l : list (pystr * pystr * pystr)) :
  Forall (fun m => let '(q, d, c) := m in
                   q <> [] /\ c <> [] /\ d <> [] /\ forallb isdigit d = true) l ->
  for_each clean_match l =
  if forallb (fun m : pystr * pystr * pystr => let '(_, d, _) := m in within_limit d) l
  then Ok (map record_of_match l) else Raise (exceeds_limit (long_digits l)).
Proof.
  induction 1 as [| m l Hm _ IH]; [reflexivity |].
  cbn [for_each forallb map]. rewrite clean_match_token, IH.
  - destruct m as [[q d] c]. cbn [fst snd]. unfold long_digits. cbn [find].
    destruct (within_limit d); [| reflexivity].
    cbn [andb bind negb].
    match goal with
    | |- context [forallb ?f l] => destruct (forallb f l)
    end; reflexivity.
  - destruct m as [[q d] c]. cbn [fst snd]. tauto.
  - destruct m as [[q d] c]. cbn [fst snd]. tauto.
Qed.

(** [parse_full_report] in closed form: one record per match, in the
    order of the matches, next to the remainder; the one way to fail is a
    score token beyond the digit limit of [int]. *)
Lemma parse_full_report_eq (text : pystr) :
  parse_full_report text =
  if tokens_within_limit text
  then Ok (map record_of_match (qa_matches text), remaining_text_of text)
  else Raise (exceeds_limit (long_digits (qa_matches text))).
Proof.
  unfold parse_full_report, tokens_within_limit.
  rewrite (for_each_clean _ (qa_matches_shape text)).
  destruct (forallb _ (qa_matches text)); reflexivity.
Qed.

Lemma parse_full_report_ok (text : pystr) (recs : list record) (rem : pystr) :
  parse_full_report text = Ok (recs, rem) ->
  tokens_within_limit text = true /\
  recs = map record_of_match (qa_matches text) /\
  rem = remaining_text_of text.
Proof.
  rewrite parse_full_report_eq.
  destruct (tokens_within_limit text); [| discriminate].
  intros [= <- <-]. auto.
Qed.

(** ** Score tokens that [int] refuses *)

Section ScoreTokens.

Variable markup_error : pystr -> style -> option exn.
Variable pdf : Type.
Variable doc_build : json -> list flowable -> result pdf.
Variable format_value : json -> pystr.

Lemma first_missing_none (m : list (pystr * json)) (fields : list pystr) :
  forallb (fun f => match dict_get f m with Some _ => true | None => false end)
          fields = true ->
  first_missing (JObj m) fields = Ok None.
Proof.
  induction fields as [| f fields IH]; simpl; auto.
  intros H. apply andb_prop in H. destruct H as [Hf H].
  destruct (dict_get f m); [| discriminate]. simpl. auto.
Qed.

Lemma long_digits_found (ms : list (pystr * pystr * pystr)) :
  forallb (fun m : pystr * pystr * pystr => let '(_, d, _) := m in within_limit d)
          ms = false ->
  exists q d c, In (q, d, c) ms /\ within_limit d = false /\
                long_digits ms = length d.
Proof.
  unfold long_digits.
  induction ms as [| [[q d] c] ms IH]; cbn [forallb find]; [discriminate |].
  destruct (within_limit d) eqn:Hd; cbn [andb negb].
  - intros H. destruct (IH H) as (q' & d' & c' & Hin & Hl & E).
    exists q', d', c'. split; [right; exact Hin | split; assumption].
  - intros _. exists q, d, c. split; [left; reflexivity | split; auto].
Qed.

(** C8: when [int] refuses a matched score token, which it does for the
    length of the token only, [parse_full_report] raises the exception of
    the first refused token; for a payload that carries every required
    field and the text as ai_overview the handler then answers with an
    internal failure (status 500 and the message of that exception), so
    no document is produced. *)
Theorem unparseable_score_is_internal_failure (text q s c : pystr) (e : exn) :
  In (q, s, c) (qa_matches text) ->
  int_py s = Raise e ->
  e = exceeds_limit (length s) /\
  exists e',
    parse_full_report text = Raise e' /\
    (exists q' s' c',
        In (q', s', c') (qa_matches text) /\ int_py s' = Raise e') /\
    forall m : list (pystr * json),
      forallb (fun f => match dict_get f m with Some _ => true | None => false end)
              required_fields = true ->
      dict_get (py "ai_overview") m = Some (JStr text) ->
      generate_report_api markup_error doc_build format_value (Ok (JObj m)) =
      Jsonify 500 (error_body (exn_message e')).
Proof.
  intros Hin He.
  assert (Hshape := qa_matches_shape text).
  rewrite Forall_forall in Hshape.
  assert (Hs := Hshape _ Hin). cbn beta iota in Hs.
  destruct Hs as (_ & _ & Hn & Hd).
  rewrite (int_py_token s Hn Hd) in He.
  destruct (within_limit s) eqn:Hl; [discriminate He |].
  injection He as <-. split; [reflexivity |].
  assert (Hall : tokens_within_limit text = false).
  { unfold tokens_within_limit.
    match goal with
    | |- forallb ?f _ = false => destruct (forallb f (qa_matches text)) eqn:E
    end; [| reflexivity].
    rewrite forallb_forall in E. specialize (E _ Hin). cbn beta iota in E.
    congruence. }
  destruct (long_digits_found (qa_matches text) Hall)
    as (q' & s' & c' & Hin' & Hl' & Elen).
  assert (Hs' := Hshape _ Hin'). cbn beta iota in Hs'.
  destruct Hs' as (_ & _ & Hn' & Hd').
  exists (exceeds_limit (length s')).
  assert (Hp : parse_full_report text = Raise (exceeds_limit (length s'))).
  { rewrite parse_full_report_eq, Hall, Elen. reflexivity. }
  split; [exact Hp |]. split.
  - exists q', s', c'. split; [exact Hin' |].
    rewrite (int_py_token s' Hn' Hd'), Hl'. reflexivity.
  - intros m Hreq Hai. unfold generate_report_api. cbn [bind truthy].
    assert (Hm : nonempty m = true) by (destruct m; [discriminate | reflexivity]).
    rewrite Hm. cbn [negb]. rewrite (first_missing_none m _ Hreq).
    cbn [bind subscript]. rewrite Hai. cbn [bind parse_overview].
    rewrite Hp. reflexivity.
Qed.

End ScoreTokens.

(** C8 at a score of 4301 digits: the block is matched, [int] refuses
    the token, and the request is answered with status 500 and the
    message of the interpreter. *)
Lemma unparseable_score_is_internal_failure_witness :
  generate_report_api plain_markup plain_build plain_format
                      (Ok long_score_payload) =
  Jsonify 500
    (error_body
       (py "Exceeds the limit (4300 digits) for integer string conversion: value has 4301 digits; use sys.set_int_max_str_digits() to increase the limit")).
Proof.
  destruct (unparseable_score_is_internal_failure
              plain_markup (list flowable) plain_build plain_format
              long_score_text (py "a") (repeat "1"%char 4301) (py "b")
              (exceeds_limit 4301))
    as (_ & e' & Hp & _ & Hh).
  - vm_compute. left. reflexivity.
  - vm_compute. reflexivity.
  - assert (E : parse_full_report long_score_text = Raise (exceeds_limit 4301))
      by (vm_compute; reflexivity).
    rewrite E in Hp. injection Hp as <-.
    unfold long_score_payload. apply Hh; reflexivity.
Defined.

(** A Score line that carries a word is another matter: the block is
    not matched, so no token reaches [int]; the parse returns no record
    and the request is answered with the document. *)
Example worded_score_is_not_matched :
  qa_matches worded_score_text = [] /\
  parse_full_report worded_score_text = Ok ([], []) /\
  generate_report_api plain_markup plain_build plain_format (Ok worded_score_payload) =
  SendFile [NextPageTemplate (py "Later")] (py "Report_42.pdf")
           (py "application/pdf").
Proof.
  split; [vm_compute; reflexivity |].
  split; vm_compute; reflexivity.
Qed.

(** ** The fields of a record *)

(** C3, amended: for every matched block the question field is the
    matched <Q> with every occurrence of "Your " removed (as written,
    with the capital and the space), then trimmed: that is <Q> trimmed
    when "Your " does not occur, and the rest trimmed when <Q> starts
    with "Your " and has no further occurrence; the comment field is the
    matched <C> trimmed, with each line feed then turned into one
    space.  The parse returns these records whenever the score tokens
    are within the digit limit of [int]. *)
Theorem record_fields_of_match (text : pystr) :
  (tokens_within_limit text = true ->
   exists recs, parse_full_report text = Ok (recs, remaining_text_of text)) /\
  forall recs rem,
    parse_full_report text = Ok (recs, rem) ->
    Forall2 (fun m r =>
               let '(q, _, c) := m in
               rquestion r = strip (replace (py "Your ") [] q) /\
               (occurs (py "Your ") q = false -> rquestion r = strip q) /\
               (forall q', q = py "Your " ++ q' ->
                           occurs (py "Your ") q' = false ->
                           rquestion r = strip q') /\
               rcomment r = map unbreak (strip c))
            (qa_matches text) recs.
Proof.
  split.
  - intros H. rewrite parse_full_report_eq, H. eexists. reflexivity.
  - intros recs rem H. apply parse_full_report_ok in H.
    destruct H as (_ & -> & _).
    induction (qa_matches text) as [| [[q d] c] l IH]; cbn [map];
      constructor; auto.
    unfold rquestion, rcomment, record_of_match. cbn [fst snd].
    split; [reflexivity | split; [| split; [| reflexivity]]].
    + intros H. rewrite (replace_absent _ _ _ H). reflexivity.
    + intros q' -> H.
      rewrite (replace_leading "Y"%char (py "our ") [] q'
               : replace (py "Your ") [] (py "Your " ++ q') = _).
      cbn [app]. rewrite (replace_absent _ _ _ H). reflexivity.
Qed.

Lemma record_fields_of_match_witness :
  exists recs,
    parse_full_report scenario_text = Ok (recs, remaining_text_of scenario_text).
Proof.
  apply (proj1 (record_fields_of_match scenario_text)). reflexivity.
Defined.

(** C3 as stated fails: in "Rate Your skills" no leading token is there
    to strip, yet the record's question is "Rate skills". *)
Lemma inner_your_removed :
  qa_matches inner_your_text = [(py "Rate Your skills", py "5", py "ok")] /\
  parse_full_report inner_your_text = Ok ([(py "Rate skills", 5, py "ok")], []) /\
  claimed_question (py "Rate Your skills") = py "Rate Your skills" /\
  py "Rate skills" <> claimed_question (py "Rate Your skills").
Proof.
  split; [vm_compute; reflexivity |].
  split; [vm_compute; reflexivity |].
  split; [vm_compute; reflexivity |].
  vm_compute. discriminate.
Qed.

(** ** Evaluating the matcher on literals and whitespace *)

Section MatcherEval.

Variable fl : flags.

Lemma run_lit (p : pystr) :
  forall s g k,
    run fl (lit p) s g k =
    if lit_front fl p s then k (skipn (length p) s) g else None.
Proof.
  induction p as [| c p IH]; intros s g k; simpl; auto.
  destruct s as [| x s]; simpl; auto.
  destruct (chr_matches fl c x); simpl; auto.
Qed.

Lemma run_seq (r1 r2 : regex) s g k :
  run fl (r1 ;;; r2) s g k = run fl r1 s g (fun s' g' => run fl r2 s' g' k).
Proof. reflexivity. Qed.

(** A greedy run in front of a pattern that no character of the class
    can start gives nothing back. *)
Lemma greedy_all (p : ascii -> bool) (k : pystr -> option outcome) :
  (forall x t, p x = true -> k (x :: t) = None) ->
  forall s, greedy p k s =
            k ((fix drop (s : pystr) : pystr :=
                  match s with
                  | x :: s' => if p x then drop s' else s
                  | [] => []
                  end) s).
Proof.
  intros Hk. induction s as [| x s IH]; simpl; auto.
  destruct (p x) eqn:Hp; auto.
  rewrite IH. destruct (k _); auto.
Qed.

Lemma greedy_space (k : pystr -> option outcome) :
  (forall x t, isspace x = true -> k (x :: t) = None) ->
  forall s, greedy isspace k s = k (lstrip s).
Proof.
  intros Hk s. rewrite (greedy_all isspace k Hk). reflexivity.
Qed.

End MatcherEval.

Lemma lit_front_ci (fl : flags) (p : pystr) :
  IGNORECASE fl = true -> forall s, lit_front fl p s = starts_ci p s.
Proof.
  intros Hfl. unfold starts_ci.
  induction p as [| c p IH]; intros s; simpl; auto.
  destruct s as [| x s]; simpl; auto.
  rewrite IH. unfold chr_matches. rewrite Hfl. unfold ascii_eqb.
  rewrite Ascii.eqb_sym. reflexivity.
Qed.

Lemma space_not_O (fl : flags) (x : ascii) :
  isspace x = true -> chr_matches fl "O" x = false.
Proof.
  unfold chr_matches. destruct (IGNORECASE fl);
    all_chars x; vm_compute; congruence.
Qed.

(** ** The remainder *)

Lemma exec_split_marker (s : pystr) :
  is_some (exec split_flags split_pattern s) = marker_at s.
Proof.
  unfold exec, split_pattern, marker_at.
  cbn [run]. rewrite !run_lit, !lit_front_ci by reflexivity.
  destruct (starts_ci (py "2.") s) eqn:H2; cbn [andb orb].
  - change (in_class split_flags Space) with isspace.
    rewrite greedy_space.
    + rewrite run_lit, lit_front_ci by reflexivity.
      destruct (starts_ci (py "Overall Evaluation:") (lstrip _)); cbn [orb];
        [reflexivity |].
      destruct (starts_ci (py "Overall Evaluation:") s); reflexivity.
    + intros x t Hx. rewrite run_lit.
      change (py "Overall Evaluation:") with ("O"%char :: py "verall Evaluation:").
      cbn [lit_front]. rewrite (space_not_O _ x Hx). reflexivity.
  - destruct (starts_ci (py "Overall Evaluation:") s); reflexivity.
Qed.

Lemma find_seq_shift (f : nat -> bool) (n : nat) :
  forall a, find f (seq (S a) n) = option_map S (find (fun j => f (S j)) (seq a n)).
Proof.
  induction n as [| n IH]; intros a; simpl; auto.
  destruct (f (S a)); simpl; auto.
Qed.

Lemma search_from_first (fl : flags) (r : regex) (f : pystr -> bool) :
  (forall s, is_some (exec fl r s) = f s) ->
  forall s i, search_from fl r i s = option_map (Nat.add i) (first_position f s).
Proof.
  intros Hf. unfold first_position.
  induction s as [| x s IH]; intros i.
  - simpl. rewrite <- Hf. destruct (exec fl r []); simpl;
      [f_equal; lia | reflexivity].
  - change (seq 0 (S (length (x :: s)))) with (0 :: seq 1 (S (length s)))%nat.
    cbn [search_from find skipn]. rewrite <- Hf.
    destruct (exec fl r (x :: s)); cbn [is_some option_map];
      [f_equal; lia |].
    rewrite IH, find_seq_shift. cbn [skipn].
    destruct (find _ _); simpl; [f_equal; lia | reflexivity].
Qed.

Lemma remaining_text_of_first_marker (text : pystr) :
  remaining_text_of text =
  match first_marker text with
  | Some i => strip (skipn i text)
  | None => []
  end.
Proof.
  unfold remaining_text_of, search, first_marker.
  rewrite (search_from_first split_flags split_pattern marker_at exec_split_marker).
  destruct (first_position marker_at text); reflexivity.
Qed.

Lemma find_seq_first (f : nat -> bool) (n : nat) :
  forall a i, find f (seq a n) = Some i ->
              f i = true /\ (a <= i < a + n)%nat /\
              forall j, (a <= j < i)%nat -> f j = false.
Proof.
  induction n as [| n IH]; intros a i; simpl; [discriminate |].
  destruct (f a) eqn:Ha.
  - intros [= <-]. repeat split; auto; lia.
  - intros H. apply IH in H. destruct H as (Hi & Hr & Hl).
    repeat split; auto; try lia.
    intros j Hj. destruct (Nat.eq_dec j a) as [-> | Hne]; auto.
    apply Hl. lia.
Qed.

Lemma find_seq_none (f : nat -> bool) (n : nat) :
  forall a, find f (seq a n) = None ->
            forall j, (a <= j < a + n)%nat -> f j = false.
Proof.
  induction n as [| n IH]; intros a; simpl; [lia |].
  destruct (f a) eqn:Ha; [discriminate |].
  intros H j Hj. destruct (Nat.eq_dec j a) as [-> | Hne]; auto.
  apply (IH _ H). lia.
Qed.

(** C4, amended: for every text the remainder the parse returns (it
    returns whenever the score tokens are within the digit limit of
    [int]) is the trimmed substring that starts at the first position
    where the text reads, letter case aside, "2." followed by any
    whitespace (none included) and "Overall Evaluation:", or "Overall
    Evaluation:" alone; it is empty when no position does; the records
    play no part. *)
Theorem remainder_from_first_marker (text : pystr) :
  (tokens_within_limit text = true ->
   exists recs,
     parse_full_report text =
     Ok (recs, match first_marker text with
               | Some i => strip (skipn i text)
               | None => []
               end)) /\
  (forall recs rem,
      parse_full_report text = Ok (recs, rem) ->
      rem = match first_marker text with
            | Some i => strip (skipn i text)
            | None => []
            end) /\
  (forall i, first_marker text = Some i ->
             marker_at (skipn i text) = true /\
             forall j, (j < i)%nat -> marker_at (skipn j text) = false) /\
  (first_marker text = None ->
   forall i, marker_at (skipn i text) = false).
Proof.
  split; [| split; [| split]].
  - intros H. exists (map record_of_match (qa_matches text)).
    rewrite parse_full_report_eq, H, remaining_text_of_first_marker. reflexivity.
  - intros recs rem H. apply parse_full_report_ok in H.
    destruct H as (_ & _ & ->). apply remaining_text_of_first_marker.
  - intros i H. apply find_seq_first in H. destruct H as (Hi & _ & Hl).
    split; [exact Hi |]. intros j Hj. apply Hl. lia.
  - intros H i. destruct (Nat.le_gt_cases i (length text)) as [Hi | Hi].
    + apply (find_seq_none _ _ _ H i). lia.
    + rewrite skipn_all2 by lia. reflexivity.
Qed.

Lemma remainder_from_first_marker_witness :
  first_marker tight_marker_text = Some 8%nat /\
  marker_at (skipn 8 tight_marker_text) = true /\
  exists recs,
    parse_full_report tight_marker_text =
    Ok (recs, py "2.Overall Evaluation: hire").
Proof.
  split; [reflexivity |].
  split.
  - apply (proj1 (proj2 (proj2 (remainder_from_first_marker tight_marker_text)))
             8%nat).
    reflexivity.
  - apply (proj1 (remainder_from_first_marker tight_marker_text)). reflexivity.
Defined.

(** C4 as stated fails: where "2." touches "Overall Evaluation:" the
    marker text "2. Overall Evaluation:" does not occur, the first
    occurrence of "Overall Evaluation:" is two characters further on, and
    the remainder still starts at "2.". *)
Lemma tight_marker_remainder :
  parse_full_report tight_marker_text = Ok ([], py "2.Overall Evaluation: hire") /\
  claimed_remainder tight_marker_text = py "Overall Evaluation: hire" /\
  py "2.Overall Evaluation: hire" <> claimed_remainder tight_marker_text.
Proof.
  split; [vm_compute; reflexivity |].
  split; [vm_compute; reflexivity |].
  vm_compute. discriminate.
Qed.

(** ** Evaluating the repetitions *)

Section Repetitions.

Variable p : ascii -> bool.
Variable k : pystr -> option outcome.







End Repetitions.

(** ** Characters *)




Lemma digit_not_nl (x : ascii) : isdigit x = true -> ascii_eqb x nl = false.
Proof. all_chars x; vm_compute; congruence. Qed.




(** ** One block under the question pattern *)






Section BlockEval.

Variable k : pystr -> caps -> option outcome.








End BlockEval.


Section PatternEval.











End PatternEval.




(** ** Scanning a narrative *)

Section Scan.

Variable fl : flags.
Variable r : regex.



Lemma findall_miss (x : ascii) (t : pystr) :
  exec fl r (x :: t) = None -> findall fl r (x :: t) = findall fl r t.
Proof. intros H. unfold findall. cbn [findall_from]. rewrite H. reflexivity. Qed.

End Scan.

Lemma exec_needs_question (s : pystr) :
  lit_front qa_flags (py "Question:") s = false ->
  exec qa_flags qa_pattern s = None.
Proof.
  intros H. unfold exec, qa_pattern. rewrite run_seq, run_lit, H. reflexivity.
Qed.


Lemma findall_no_question (s : pystr) :
  occurs_ci (py "Question:") s = false ->
  findall qa_flags qa_pattern s = [].
Proof.
  induction s as [| x s IH]; [reflexivity |].
  cbn [occurs_ci]. intros H. apply orb_false_elim in H. destruct H as [H1 H2].
  rewrite findall_miss; auto.
  apply exec_needs_question. rewrite lit_front_ci by reflexivity. exact H1.
Qed.


(** ** Where the comment pattern stops *)





Lemma eqb_nl (c : ascii) : ascii_eqb c nl = true -> c = nl.
Proof. apply Ascii.eqb_eq. Qed.



(** ** "Question:" across a boundary *)





(** ** The blocks of a narrative, in order *)








Lemma lstrip_head (l : pystr) : head_fails isspace l -> lstrip l = l.
Proof. destruct l as [| x l]; simpl; auto. intros ->. reflexivity. Qed.







(** ** The value of a score token *)







(** The same narrative evaluated. *)
Example sample_narrative_parse :
  parse_full_report (narrative sample_intro (py "\n\n") sample_blocks sample_ending) =
  Ok ([(py "communication skills", 8, py "Excellent clarity");
       (py "Team work", 10, py "Works well with others")],
      py "2. Overall Evaluation: Strong candidate.").
Proof. vm_compute. reflexivity. Qed.

(** ** The matcher on further texts

    Backtracking into the question group, letter case and blank lines,
    and two blocks in front of a numbered summary. *)

Example blank_question_backtracks :
  qa_matches (py "Question:   \nScore: 1\nComment: x\nQuestion: b\nScore: 2\nComment: y\n") =
  [(py "Score: 1\nComment: x\nQuestion: b", py "2", py "y\n")].
Proof. vm_compute. reflexivity. Qed.

Example lower_case_labels :
  qa_matches (py "question: a  \n score: 12 \n\n comment:  x\ny\n 2. Overall") =
  [(py "a", py "12", py "x\ny")].
Proof. vm_compute. reflexivity. Qed.

Example two_blocks_and_summary :
  parse_full_report
    (py "Question: a\nScore: 1\nComment: x\n\n  Question: b\nScore: 2\nComment: y\n2.Overall Evaluation: z") =
  Ok ([(py "a", 1, py "x"); (py "b", 2, py "y")], py "2.Overall Evaluation: z").
Proof. vm_compute. reflexivity. Qed.

Example replace_is_one_pass :
  replace (py "Your ") [] (py "Your Your x YoYour ur ") = py "x Your ".
Proof. vm_compute. reflexivity. Qed.


(** ** [int] on further literals *)

Example int_py_literals :
  int_py (py "8") = Ok 8 /\
  int_py (py " +1_000 ") = Ok 1000 /\
  int_py (py "-07") = Ok (-7) /\
  int_py (py "1__2") =
    Raise (ValueError (py "invalid literal for int() with base 10: '1__2'")) /\
  int_py (py "_1") =
    Raise (ValueError (py "invalid literal for int() with base 10: '_1'")) /\
  int_py (py " 8.5\n") =
    Raise (ValueError (py "invalid literal for int() with base 10: ' 8.5"
                       ++ ["\"; "n"; "'"]%char)) /\
  int_py (py "it's") =
    Raise (ValueError [ "i"; "n"; "v"; "a"; "l"; "i"; "d"; " "; "l"; "i"; "t";
                        "e"; "r"; "a"; "l"; " "; "f"; "o"; "r"; " "; "i"; "n";
                        "t"; "("; ")"; " "; "w"; "i"; "t"; "h"; " "; "b"; "a";
                        "s"; "e"; " "; "1"; "0"; ":"; " "; "034"; "i"; "t";
                        "'"; "s"; "034" ]%char) /\
  int_py [] =
    Raise (ValueError (py "invalid literal for int() with base 10: ''")).
Proof. vm_compute. repeat split. Qed.

(** A score of 4301 digits is matched and then refused by [int]. *)
Example long_token_raises :
  parse_full_report long_score_text =
  Raise (ValueError
           (py "Exceeds the limit (4300 digits) for integer string conversion: value has 4301 digits; use sys.set_int_max_str_digits() to increase the limit")).
Proof. vm_compute. reflexivity. Qed.


(** ** A narrative without blocks *)

(** Zero records, a non-empty remainder, and a story that holds the
    formatted remainder alone behind the template switch. *)
Example summary_only_story :
  parse_full_report summary_only_text =
  Ok ([], py "Overall Evaluation: Strong candidate.\nFinal Recommendation: Hire") /\
  build_story strict_markup []
              (py "Overall Evaluation: Strong candidate.\nFinal Recommendation: Hire") =
  Ok [NextPageTemplate (py "Later");
      Para (mk_paragraph
              (py "<b>Overall Evaluation:</b> Strong candidate.<br/><br/><br/><b>Final Recommendation:</b> Hire")
              Body)].
Proof. split; vm_compute; reflexivity. Qed.


(** * Further properties of the parser *)

(** X1: text in which "Question:" does not occur, letter case aside, is
    no error: the parse returns no record, next to the remainder. *)
Theorem text_without_question_has_no_records (text : pystr) :
  occurs_ci (py "Question:") text = false ->
  parse_full_report text = Ok ([], remaining_text_of text).
Proof.
  intros H. rewrite parse_full_report_eq. unfold tokens_within_limit, qa_matches.
  rewrite (findall_no_question text H). reflexivity.
Qed.

Lemma text_without_question_has_no_records_witness :
  parse_full_report summary_only_text =
  Ok ([], remaining_text_of summary_only_text).
Proof.
  apply (text_without_question_has_no_records summary_only_text). reflexivity.
Defined.

Lemma digit_value_nonneg (c : ascii) : 0 <= digit_value c.
Proof. unfold digit_value. apply Nat2Z.is_nonneg. Qed.

Lemma digits_fold_nonneg (d : pystr) :
  forall acc, 0 <= acc ->
              0 <= fold_left (fun a c => 10 * a + digit_value c) d acc.
Proof.
  induction d as [| x d IH]; intros acc H; cbn [fold_left]; [exact H |].
  apply IH. pose proof (digit_value_nonneg x). lia.
Qed.

(** X2: every score the parse returns is a non-negative integer. *)
Theorem scores_are_nonnegative (text : pystr) (recs : list record)
        (rem : pystr) :
  parse_full_report text = Ok (recs, rem) ->
  Forall (fun r => 0 <= rscore r) recs.
Proof.
  intros H. apply parse_full_report_ok in H. destruct H as (_ & -> & _).
  apply Forall_map. apply Forall_forall. intros [[q d] c] _.
  unfold rscore, record_of_match, digits_value. cbn [fst snd].
  apply digits_fold_nonneg. lia.
Qed.

Lemma scores_are_nonnegative_witness :
  Forall (fun r => 0 <= rscore r)
         [(py "Rate skills", 5, py "ok")].
Proof.
  apply (scores_are_nonnegative inner_your_text _ []).
  vm_compute. reflexivity.
Defined.

(** ** Trimmed texts *)

Lemma lstrip_split (s : pystr) :
  exists w, s = w ++ lstrip s /\ forallb isspace w = true.
Proof.
  induction s as [| x s (w & E & Hw)]; [exists []; auto |].
  simpl. destruct (isspace x) eqn:Hx.
  - exists (x :: w). simpl. rewrite Hx, Hw, <- E. auto.
  - exists []. auto.
Qed.

Lemma lstrip_head_fails (s : pystr) : head_fails isspace (lstrip s).
Proof.
  induction s as [| x s IH]; simpl; auto.
  destruct (isspace x) eqn:Hx; [exact IH | exact Hx].
Qed.

Lemma rstrip_split (s : pystr) :
  exists w, s = rstrip s ++ w /\ forallb isspace w = true.
Proof.
  unfold rstrip. destruct (lstrip_split (rev s)) as (w & E & Hw).
  exists (rev w). split.
  - rewrite <- rev_app_distr, <- E. symmetry. apply rev_involutive.
  - rewrite forallb_rev. exact Hw.
Qed.

Lemma rstrip_keeps_head (s : pystr) :
  head_fails isspace s -> head_fails isspace (rstrip s).
Proof.
  intros H. destruct (rstrip_split s) as (w & E & _).
  destruct (rstrip s) as [| x t]; [exact I |].
  rewrite E in H. exact H.
Qed.

Lemma rstrip_fixed (s : pystr) : rstrip (rstrip s) = rstrip s.
Proof.
  unfold rstrip. rewrite rev_involutive.
  rewrite (lstrip_head (lstrip (rev s))) by apply lstrip_head_fails.
  reflexivity.
Qed.

Lemma strip_idempotent (s : pystr) : strip (strip s) = strip s.
Proof.
  unfold strip.
  rewrite (lstrip_head (rstrip (lstrip s)))
    by (apply rstrip_keeps_head, lstrip_head_fails).
  apply rstrip_fixed.
Qed.

Lemma unbreak_space (x : ascii) : isspace (unbreak x) = isspace x.
Proof.
  unfold unbreak. destruct (ascii_eqb x nl) eqn:E; [| reflexivity].
  apply eqb_nl in E. subst x. reflexivity.
Qed.

Lemma lstrip_unbreak (s : pystr) :
  lstrip (map unbreak s) = map unbreak (lstrip s).
Proof.
  induction s as [| x s IH]; cbn [map lstrip]; auto.
  rewrite unbreak_space. destruct (isspace x); [exact IH | reflexivity].
Qed.

Lemma strip_unbreak (s : pystr) :
  strip (map unbreak s) = map unbreak (strip s).
Proof.
  unfold strip, rstrip.
  rewrite lstrip_unbreak, <- map_rev, lstrip_unbreak, map_rev. reflexivity.
Qed.

Lemma unbreak_no_line_feed (s : pystr) : no_newline (map unbreak s) = true.
Proof.
  unfold no_newline. induction s as [| x s IH]; cbn [map forallb]; auto.
  rewrite IH, andb_true_r. unfold unbreak.
  destruct (ascii_eqb x nl) eqn:E; [reflexivity | rewrite E; reflexivity].
Qed.

(** X3: the text fields of every record are clean: the question carries
    no whitespace at either end, the comment none either and no line
    feed at all. *)
Theorem record_fields_are_trimmed (text : pystr) (recs : list record)
        (rem : pystr) :
  parse_full_report text = Ok (recs, rem) ->
  Forall (fun r => strip (rquestion r) = rquestion r /\
                   strip (rcomment r) = rcomment r /\
                   no_newline (rcomment r) = true) recs.
Proof.
  intros H. apply parse_full_report_ok in H. destruct H as (_ & -> & _).
  apply Forall_map. apply Forall_forall. intros [[q d] c] _.
  unfold rquestion, rcomment, record_of_match. cbn [fst snd].
  split; [apply strip_idempotent | split].
  - rewrite strip_unbreak, strip_idempotent. reflexivity.
  - apply unbreak_no_line_feed.
Qed.

Lemma record_fields_are_trimmed_witness :
  Forall (fun r => strip (rquestion r) = rquestion r /\
                   strip (rcomment r) = rcomment r /\
                   no_newline (rcomment r) = true)
         [(py "a", 12, py "x y")].
Proof.
  apply (record_fields_are_trimmed
           (py "question: a  \n score: 12 \n\n comment:  x\ny\n 2. Overall") _ []).
  vm_compute. reflexivity.
Defined.


(** ** The remainder as a piece of the text *)

Lemma space_not_2 (fl : flags) (x : ascii) :
  isspace x = true -> chr_matches fl "2" x = false.
Proof.
  unfold chr_matches. destruct (IGNORECASE fl);
    all_chars x; vm_compute; congruence.
Qed.

Lemma space_not_colon (fl : flags) (x : ascii) :
  isspace x = true -> chr_matches fl ":" x = false.
Proof.
  unfold chr_matches. destruct (IGNORECASE fl);
    all_chars x; vm_compute; congruence.
Qed.

Lemma space_not_period (fl : flags) (x : ascii) :
  isspace x = true -> chr_matches fl "." x = false.
Proof.
  unfold chr_matches. destruct (IGNORECASE fl);
    all_chars x; vm_compute; congruence.
Qed.

(** A literal that ends in a character no whitespace matches cannot end
    inside trailing whitespace. *)
Lemma lit_front_trim (fl : flags) (p : pystr) :
  p <> [] ->
  (forall x, isspace x = true -> chr_matches fl (last p nl) x = false) ->
  forall a w, forallb isspace w = true ->
              lit_front fl p (a ++ w) = true -> lit_front fl p a = true.
Proof.
  induction p as [| c p IH]; [congruence |]. intros _ Hl a w Hw H.
  destruct p as [| c2 p].
  - destruct a as [| x a]; [| exact H].
    destruct w as [| x w]; [discriminate H |].
    cbn in H, Hw, Hl. apply andb_prop in Hw. destruct Hw as [Hx _].
    rewrite (Hl x Hx) in H. discriminate H.
  - assert (Hl' : forall x, isspace x = true ->
                            chr_matches fl (last (c2 :: p) nl) x = false)
      by exact Hl.
    destruct a as [| x a].
    + destruct w as [| x w]; [discriminate H |].
      cbn [app lit_front] in H. apply andb_prop in H. destruct H as [_ H].
      cbn [forallb] in Hw. apply andb_prop in Hw. destruct Hw as [_ Hw].
      assert (E := IH ltac:(discriminate) Hl' [] w Hw H). discriminate E.
    + cbn [app lit_front] in H |- *. apply andb_prop in H. destruct H as [Hc H].
      rewrite Hc. exact (IH ltac:(discriminate) Hl' a w Hw H).
Qed.

Lemma lstrip_spaces (w : pystr) : forallb isspace w = true -> lstrip w = [].
Proof.
  induction w as [| x w IH]; simpl; auto. intros H.
  apply andb_prop in H. destruct H as [-> Hw]. auto.
Qed.

Lemma lstrip_app_spaces (a w : pystr) :
  forallb isspace w = true ->
  exists w', lstrip (a ++ w) = lstrip a ++ w' /\ forallb isspace w' = true.
Proof.
  intros Hw. induction a as [| x a (w' & E & Hw')].
  - exists []. split; [| reflexivity].
    change ([] ++ w) with w. rewrite (lstrip_spaces w Hw). reflexivity.
  - cbn [app lstrip]. destruct (isspace x).
    + exists w'. auto.
    + exists w. auto.
Qed.

Lemma marker_at_trim (a w : pystr) :
  forallb isspace w = true -> marker_at (a ++ w) = true -> marker_at a = true.
Proof.
  intros Hw. unfold marker_at.
  rewrite <- !(lit_front_ci split_flags) by reflexivity.
  intros H. apply orb_prop in H. destruct H as [H | H].
  - apply andb_prop in H. destruct H as [H2 Ho].
    assert (H2a : lit_front split_flags (py "2.") a = true).
    { apply (lit_front_trim split_flags (py "2.")) with (w := w); auto.
      - discriminate.
      - intros x Hx. apply space_not_period. exact Hx. }
    rewrite H2a. cbn [andb]. apply orb_true_iff. left.
    destruct a as [| x1 [| x2 a2]];
      [discriminate H2a
      | cbn in H2a; rewrite andb_false_r in H2a; discriminate H2a |].
    cbn [skipn app] in Ho |- *.
    destruct (lstrip_app_spaces a2 w Hw) as (w' & E & Hw'). rewrite E in Ho.
    apply (lit_front_trim split_flags (py "Overall Evaluation:")) with (w := w'); auto.
    + discriminate.
    + intros x Hx. apply space_not_colon. exact Hx.
  - apply orb_true_iff. right.
    apply (lit_front_trim split_flags (py "Overall Evaluation:")) with (w := w); auto.
    + discriminate.
    + intros x Hx. apply space_not_colon. exact Hx.
Qed.

Lemma marker_at_head (s : pystr) :
  marker_at s = true -> head_fails isspace s /\ s <> [].
Proof.
  unfold marker_at. rewrite <- !(lit_front_ci split_flags) by reflexivity.
  destruct s as [| x s]; [discriminate |]. intros H.
  split; [| discriminate]. cbn [head_fails].
  destruct (isspace x) eqn:Hx; [| reflexivity]. exfalso.
  change (py "2.") with ("2"%char :: py ".") in H.
  change (py "Overall Evaluation:") with ("O"%char :: py "verall Evaluation:") in H.
  cbn [lit_front] in H.
  rewrite (space_not_2 split_flags x Hx), (space_not_O split_flags x Hx) in H.
  discriminate H.
Qed.

(** X4: the remainder is a piece of the text itself.  Without a marker
    it is empty; with one, it begins with the marker at its first
    position, carries no whitespace at either end, and runs to the end
    of the text up to trailing whitespace. *)
Theorem remainder_is_marked_tail (text : pystr) (recs : list record)
        (rem : pystr) :
  parse_full_report text = Ok (recs, rem) ->
  match first_marker text with
  | None => rem = []
  | Some i =>
      marker_at rem = true /\ strip rem = rem /\
      exists post, skipn i text = rem ++ post /\ forallb isspace post = true
  end.
Proof.
  intros H. apply parse_full_report_ok in H. destruct H as (_ & _ & ->).
  rewrite remaining_text_of_first_marker.
  destruct (first_marker text) as [i |] eqn:Hm; [| reflexivity].
  apply find_seq_first in Hm. destruct Hm as (Hi & _ & _).
  destruct (marker_at_head _ Hi) as (Hh & _).
  assert (Es : strip (skipn i text) = rstrip (skipn i text))
    by (unfold strip; rewrite (lstrip_head _ Hh); reflexivity).
  destruct (rstrip_split (skipn i text)) as (post & E & Hpost).
  split; [| split].
  - rewrite Es. apply (marker_at_trim _ post Hpost). rewrite <- E. exact Hi.
  - apply strip_idempotent.
  - exists post. rewrite Es. auto.
Qed.

Lemma remainder_is_marked_tail_witness :
  marker_at (py "Overall Evaluation: fine") = true /\
  strip (py "Overall Evaluation: fine") = py "Overall Evaluation: fine" /\
  exists post,
    skipn 6 (py "Intro\nOverall Evaluation: fine \n") =
    py "Overall Evaluation: fine" ++ post /\
    forallb isspace post = true.
Proof.
  apply (remainder_is_marked_tail (py "Intro\nOverall Evaluation: fine \n") []
           (py "Overall Evaluation: fine")).
  vm_compute. reflexivity.
Defined.


(** * Further properties of the chart, the table and the story *)

Lemma nth_error_map_seq {A} (f : nat -> A) (n : nat) :
  forall a i, (i < n)%nat ->
              nth_error (map f (seq a n)) i = Some (f (a + i)%nat).
Proof.
  induction n as [| n IH]; intros a i H; [lia |].
  destruct i as [| i]; cbn [seq map nth_error].
  - rewrite Nat.add_0_r. reflexivity.
  - rewrite IH by lia. f_equal. f_equal. lia.
Qed.

Lemma nth_error_mapped {A B} (f : A -> B) (l : list A) :
  forall i a, nth_error l i = Some a -> nth_error (map f l) i = Some (f a).
Proof.
  induction l as [| x l IH]; intros [| i] a H; try discriminate;
    cbn [map nth_error] in *.
  - injection H as ->. reflexivity.
  - apply IH. exact H.
Qed.

Lemma nth_error_in_range {A} (l : list A) (i : nat) (a : A) :
  nth_error l i = Some a -> (i < length l)%nat.
Proof. intros H. apply nth_error_Some. congruence. Qed.

(** X5: for a non-empty record list the chart is one bar chart with a
    single data series, the scores of the records in their order and
    unclamped; it has one category label per record, "Q" and the position
    counted from 1; and the program asks for one fill colour per record,
    the colour of the record's score at the style index of the record's
    position.  (In the library a style index names a data series, so
    this says what is asked for, not what is drawn.)  The value axis is
    0 to 10 and the plot keeps 20 points free on both sides of the
    content box. *)
Theorem chart_follows_records (recs : list record) :
  nonempty recs = true ->
  exists bc,
    create_score_chart recs =
    Some {| d_width := BOX_WIDTH; d_height := 120; d_contents := [bc] |} /\
    bc_data bc = [map rscore recs] /\
    length (categoryNames bc) = length recs /\
    length (bars_fillColor bc) = length recs /\
    (forall i r,
        nth_error recs i = Some r ->
        nth_error (categoryNames bc) i =
        Some (py "Q" ++ str_of_Z (Z.of_nat i + 1)) /\
        nth_error (bars_fillColor bc) i = Some (bar_fill (rscore r))) /\
    valueMin bc = 0 /\ valueMax bc = 10 /\
    bc_x bc = 20 /\ bc_x bc + bc_width bc + 20 = BOX_WIDTH.
Proof.
  destruct recs as [| r0 recs]; [discriminate |]. intros _.
  eexists. split; [reflexivity |]. cbn [bc_data categoryNames bars_fillColor
                                       valueMin valueMax bc_x bc_width].
  split; [reflexivity |].
  split; [rewrite length_map, length_seq, length_map; reflexivity |].
  split; [rewrite !length_map; reflexivity |].
  split; [| repeat split].
  intros i r H. split.
  - rewrite nth_error_map_seq; [reflexivity |].
    rewrite length_map. apply (nth_error_in_range _ _ _ H).
  - apply nth_error_mapped. apply (nth_error_mapped rscore _ i r H).
Qed.

Lemma chart_follows_records_witness :
  exists bc,
    create_score_chart [(py "a", 7, py "b"); (py "c", 42, py "d")] =
    Some {| d_width := BOX_WIDTH; d_height := 120; d_contents := [bc] |} /\
    bc_data bc = [[7; 42]] /\
    categoryNames bc = [py "Q1"; py "Q2"] /\
    bars_fillColor bc = [py "#2ecc71"; py "#2ecc71"].
Proof.
  destruct (chart_follows_records
              [(py "a", 7, py "b"); (py "c", 42, py "d")] eq_refl)
    as (bc & E & Hd & _).
  exists bc. split; [exact E |]. split; [exact Hd |].
  injection E as <-. split; reflexivity.
Defined.

(** ** Printing positions *)

Lemma to_int_not_nil (z : Z) :
  Z.to_int z <> Decimal.Pos Decimal.Nil /\ Z.to_int z <> Decimal.Neg Decimal.Nil.
Proof.
  destruct z as [| p | p]; cbn; split; try discriminate;
    intros [= H]; apply (DecimalPos.Unsigned.to_uint_nonnil p H).
Qed.

(** [str] of an integer names it: two integers print alike only when
    equal. *)
Lemma str_of_Z_inj (a b : Z) : str_of_Z a = str_of_Z b -> a = b.
Proof.
  unfold str_of_Z. intros H.
  apply (f_equal string_of_list_ascii) in H.
  rewrite !string_of_list_ascii_of_string in H.
  apply (f_equal NilZero.int_of_string) in H.
  destruct (to_int_not_nil a) as [Ha1 Ha2].
  destruct (to_int_not_nil b) as [Hb1 Hb2].
  rewrite !NilZero.isi in H by assumption.
  injection H as H. apply DecimalZ.to_int_inj. exact H.
Qed.

Lemma labels_NoDup (n : nat) :
  forall a, NoDup (map (fun i => py "Q" ++ str_of_Z (Z.of_nat i + 1)) (seq a n)).
Proof.
  induction n as [| n IH]; intros a; cbn [seq map]; constructor; [| apply IH].
  intros H. apply in_map_iff in H. destruct H as (i & E & Hi).
  apply in_seq in Hi. injection E as E. apply str_of_Z_inj in E. lia.
Qed.

(** X6: the category labels of a chart are pairwise distinct, however
    many records there are. *)
Theorem chart_labels_are_distinct (recs : list record) (d : drawing) :
  create_score_chart recs = Some d ->
  Forall (fun bc => NoDup (categoryNames bc)) (d_contents d).
Proof.
  destruct recs as [| r recs]; [discriminate |]. intros [= <-].
  constructor; [| constructor].
  exact (labels_NoDup (length (map rscore (r :: recs))) 0%nat).
Qed.

(** X6 at eleven records, where "Q1" is the front of "Q10" and of
    "Q11". *)
Lemma chart_labels_are_distinct_witness :
  exists d,
    create_score_chart eleven_records = Some d /\
    map categoryNames (d_contents d) =
    [[py "Q1"; py "Q2"; py "Q3"; py "Q4"; py "Q5"; py "Q6"; py "Q7";
      py "Q8"; py "Q9"; py "Q10"; py "Q11"]] /\
    Forall (fun bc => NoDup (categoryNames bc)) (d_contents d).
Proof.
  eexists. split; [reflexivity |]. split; [reflexivity |].
  apply (chart_labels_are_distinct eleven_records). reflexivity.
Defined.


(** ** The table *)

Section TableAndStory.

Variable markup_error : pystr -> style -> option exn.

Lemma Paragraph_ok (text : pystr) (st : style) :
  markup_error text st = None ->
  Paragraph markup_error text st = Ok (mk_paragraph text st).
Proof. unfold Paragraph. intros ->. reflexivity. Qed.

Lemma Paragraph_inv (text : pystr) (st : style) (p : paragraph) :
  Paragraph markup_error text st = Ok p ->
  markup_error text st = None /\ p = mk_paragraph text st.
Proof.
  unfold Paragraph. destruct (markup_error text st); [discriminate |].
  intros [= <-]. auto.
Qed.


Lemma qa_row_ok (r : record) :
  row_accepted markup_error r -> qa_row markup_error r = Ok (row_of r).
Proof.
  destruct r as [[q s] c]. intros (Hs & Hq & Hc).
  unfold rscore, rquestion, rcomment in *. cbn [fst snd] in *.
  unfold qa_row. rewrite (Paragraph_ok _ _ Hs), (Paragraph_ok _ _ Hq),
    (Paragraph_ok _ _ Hc). reflexivity.
Qed.

Lemma qa_row_inv (r : record) (row : list paragraph) :
  qa_row markup_error r = Ok row ->
  row_accepted markup_error r /\ row = row_of r.
Proof.
  destruct r as [[q s] c]. unfold qa_row.
  destruct (Paragraph markup_error (score_markup s) TabNormal) as [ps | e] eqn:Es;
    cbn [bind]; [| discriminate].
  destruct (Paragraph markup_error q TabNormal) as [pq | e] eqn:Eq;
    cbn [bind]; [| discriminate].
  destruct (Paragraph markup_error c TabNormal) as [pc | e] eqn:Ec;
    cbn [bind]; [| discriminate].
  apply Paragraph_inv in Es, Eq, Ec.
  destruct Es as [Hs ->], Eq as [Hq ->], Ec as [Hc ->].
  intros [= <-]. split; [| reflexivity]. repeat split; assumption.
Qed.


Lemma rows_ok (recs : list record) :
  Forall (row_accepted markup_error) recs ->
  for_each (qa_row markup_error) recs = Ok (map row_of recs).
Proof.
  induction 1 as [| r recs Hr _ IH]; [reflexivity |].
  cbn [for_each map]. rewrite (qa_row_ok r Hr), IH. reflexivity.
Qed.

Lemma rows_inv (recs : list record) :
  forall rows,
    for_each (qa_row markup_error) recs = Ok rows ->
    Forall (row_accepted markup_error) recs /\ rows = map row_of recs.
Proof.
  induction recs as [| r recs IH]; cbn [for_each map]; intros rows.
  - intros [= <-]. split; [constructor | reflexivity].
  - destruct (qa_row markup_error r) as [row | e] eqn:Er; cbn [bind];
      [| discriminate].
    destruct (for_each (qa_row markup_error) recs) as [rows' | e] eqn:Ers;
      cbn [bind]; [| discriminate].
    intros [= <-]. apply qa_row_inv in Er. destruct Er as [Hr ->].
    destruct (IH rows' eq_refl) as [Hrs ->].
    split; [constructor; assumption | reflexivity].
Qed.


Lemma create_qa_table_ok (recs : list record) :
  nonempty recs = true ->
  header_accepted markup_error ->
  Forall (row_accepted markup_error) recs ->
  create_qa_table markup_error recs =
  Ok (Some {| t_data := [ mk_paragraph (py "Question") TabHeader;
                          mk_paragraph (py "Analysis / Feedback") TabHeader;
                          mk_paragraph (py "Score") TabHeader ]
                        :: map row_of recs;
              colWidths := [140; 286; 70];
              repeatRows := 1;
              t_style := qa_table_style |}).
Proof.
  destruct recs as [| r recs]; [discriminate |].
  intros _ (H1 & H2 & H3) Hrows. unfold create_qa_table.
  rewrite (Paragraph_ok _ _ H1), (Paragraph_ok _ _ H2), (Paragraph_ok _ _ H3).
  cbn [bind]. rewrite (rows_ok _ Hrows). reflexivity.
Qed.

Lemma create_qa_table_inv (recs : list record) (t : table) :
  create_qa_table markup_error recs = Ok (Some t) ->
  nonempty recs = true /\
  header_accepted markup_error /\
  Forall (row_accepted markup_error) recs /\
  t = {| t_data := [ mk_paragraph (py "Question") TabHeader;
                     mk_paragraph (py "Analysis / Feedback") TabHeader;
                     mk_paragraph (py "Score") TabHeader ]
                   :: map row_of recs;
         colWidths := [140; 286; 70];
         repeatRows := 1;
         t_style := qa_table_style |}.
Proof.
  destruct recs as [| r recs]; [discriminate |]. unfold create_qa_table.
  destruct (Paragraph markup_error (py "Question") TabHeader) as [p1 | e] eqn:E1;
    cbn [bind]; [| discriminate].
  destruct (Paragraph markup_error (py "Analysis / Feedback") TabHeader)
    as [p2 | e] eqn:E2; cbn [bind]; [| discriminate].
  destruct (Paragraph markup_error (py "Score") TabHeader) as [p3 | e] eqn:E3;
    cbn [bind]; [| discriminate].
  destruct (for_each (qa_row markup_error) (r :: recs)) as [rows | e] eqn:Er;
    cbn [bind]; [| discriminate].
  apply Paragraph_inv in E1, E2, E3.
  destruct E1 as [H1 ->], E2 as [H2 ->], E3 as [H3 ->].
  apply rows_inv in Er. destruct Er as [Hrows ->].
  intros [= <-]. repeat split; assumption.
Qed.

Lemma create_qa_table_some (recs : list record) :
  nonempty recs = true -> create_qa_table markup_error recs <> Ok None.
Proof.
  destruct recs as [| r recs]; [discriminate |]. intros _.
  unfold create_qa_table.
  destruct (Paragraph markup_error (py "Question") TabHeader); cbn [bind];
    [| discriminate].
  destruct (Paragraph markup_error (py "Analysis / Feedback") TabHeader);
    cbn [bind]; [| discriminate].
  destruct (Paragraph markup_error (py "Score") TabHeader); cbn [bind];
    [| discriminate].
  destruct (for_each (qa_row markup_error) (r :: recs)); cbn [bind];
    discriminate.
Qed.


(** X7: for a non-empty record list the table is built exactly when the
    markup parser accepts the three header texts and, of every record,
    the score markup, the question and the comment; otherwise
    [create_qa_table] raises.  A table that is built holds the header
    row and one row per record, in the order of the records; every row
    has three cells, one per column width; the column widths add up to
    the width of the content box; the header row is the one repeated on
    a new page; the row of a record carries its question, its comment
    and its score over 10. *)
Theorem table_has_one_row_per_record (recs : list record) :
  nonempty recs = true ->
  (header_accepted markup_error /\ Forall (row_accepted markup_error) recs <->
   exists t, create_qa_table markup_error recs = Ok (Some t)) /\
  create_qa_table markup_error recs <> Ok None /\
  forall t,
    create_qa_table markup_error recs = Ok (Some t) ->
    length (t_data t) = S (length recs) /\
    Forall (fun row => length row = length (colWidths t)) (t_data t) /\
    fold_right Z.add 0 (colWidths t) = BOX_WIDTH /\
    repeatRows t = 1 /\
    (exists header, nth_error (t_data t) 0 = Some header /\
                    Forall (fun p => p_style p = TabHeader) header) /\
    forall i r,
      nth_error recs i = Some r ->
      nth_error (t_data t) (S i) =
      Some [mk_paragraph (rquestion r) TabNormal;
            mk_paragraph (rcomment r) TabNormal;
            mk_paragraph (score_markup (rscore r)) TabNormal].
Proof.
  intros Hne. split; [| split].
  - split.
    + intros [Hh Hr]. eexists. apply (create_qa_table_ok recs Hne Hh Hr).
    + intros [t Ht]. apply create_qa_table_inv in Ht. tauto.
  - apply (create_qa_table_some recs Hne).
  - intros t Ht. apply create_qa_table_inv in Ht.
    destruct Ht as (_ & _ & _ & ->). cbn [t_data colWidths repeatRows].
    split; [cbn [length]; rewrite length_map; reflexivity |].
    split.
    { constructor; [reflexivity |]. apply Forall_map. apply Forall_forall.
      intros r _. reflexivity. }
    split; [reflexivity |]. split; [reflexivity |].
    split.
    { eexists. split; [reflexivity |]. repeat constructor. }
    intros i r H. cbn [nth_error].
    rewrite (nth_error_mapped row_of _ i r H). reflexivity.
Qed.

(** X8: for every record of a list whose table is built, the fill colour
    the chart code asks for at the style index of the record's position
    and the font colour of the record's score cell, which shows the score
    over 10, are in the same band. *)
Theorem style_index_and_score_cell_agree (recs : list record) (i : nat)
        (r : record) (t : table) :
  nth_error recs i = Some r ->
  create_qa_table markup_error recs = Ok (Some t) ->
  exists d bc fill name,
    create_score_chart recs = Some d /\ d_contents d = [bc] /\
    nth_error (bars_fillColor bc) i = Some fill /\
    nth_error (t_data t) (S i) =
    Some [mk_paragraph (rquestion r) TabNormal;
          mk_paragraph (rcomment r) TabNormal;
          mk_paragraph (py "<font color='" ++ name ++ py "'><b>"
                        ++ str_of_Z (rscore r) ++ py "/10</b></font>")
                       TabNormal] /\
    band_of_fill fill = band_of_name name /\
    band_of_fill fill <> None.
Proof.
  intros H Ht. apply create_qa_table_inv in Ht.
  destruct Ht as (_ & _ & _ & ->).
  destruct recs as [| r0 recs]; [destruct i; discriminate |].
  do 2 eexists. exists (bar_fill (rscore r)), (score_color (rscore r)).
  split; [reflexivity |]. split; [reflexivity |].
  cbn [bars_fillColor t_data]. split; [| split].
  - apply nth_error_mapped. apply (nth_error_mapped rscore _ i r H).
  - cbn [nth_error]. rewrite (nth_error_mapped row_of _ i r H). reflexivity.
  - destruct (bar_fill_cases (rscore r)) as [[Hb ->] | [[Hb ->] | [Hb ->]]];
      destruct (score_color_cases (rscore r)) as [[Hc ->] | [[Hc ->] | [Hc ->]]];
      try lia; split; (reflexivity || discriminate).
Qed.

(** ** The story with records *)


(** X9: for a non-empty record list a story that is assembled is the
    template switch, the "Score Overview" heading, the chart and a
    spacer, the "Detailed Question Analysis" heading, a spacer, the
    table and a spacer, and last the remainder paragraph when the
    remainder is not empty; it is assembled when the markup parser
    accepts the two headings, the table is built and the formatted
    remainder, if any, is accepted.  Whatever the records and the
    remainder, no None enters an assembled story and the template switch
    to 'Later' is its first item and its only switch. *)
Theorem story_with_records (qa_data : list record) (remaining_text : pystr) :
  (nonempty qa_data = true ->
   forall story,
     build_story markup_error qa_data remaining_text = Ok story ->
     exists chart t,
       create_score_chart qa_data = Some chart /\
       create_qa_table markup_error qa_data = Ok (Some t) /\
       story =
       [NextPageTemplate (py "Later");
        Para (mk_paragraph (py "<b>Score Overview</b>") Head);
        Chart chart; Spacer 1 15;
        Para (mk_paragraph (py "<b>Detailed Question Analysis</b>") Head);
        Spacer 1 5; Tbl t; Spacer 1 20]
       ++ (if nonempty remaining_text
           then [Para (mk_paragraph (format_remaining remaining_text) Body)]
           else [])) /\
  (nonempty qa_data = true ->
   headings_accepted markup_error ->
   (exists t, create_qa_table markup_error qa_data = Ok (Some t)) ->
   (nonempty remaining_text = true ->
    markup_error (format_remaining remaining_text) Body = None) ->
   exists story, build_story markup_error qa_data remaining_text = Ok story) /\
  forall story,
    build_story markup_error qa_data remaining_text = Ok story ->
    ~ In NoneItem story /\
    exists rest,
      story = NextPageTemplate (py "Later") :: rest /\
      forallb (fun f => negb (is_switch f)) rest = true.
Proof.
  assert (Hshape :
    nonempty qa_data = true ->
    forall story,
      build_story markup_error qa_data remaining_text = Ok story ->
      exists chart t,
        create_score_chart qa_data = Some chart /\
        create_qa_table markup_error qa_data = Ok (Some t) /\
        story =
        [NextPageTemplate (py "Later");
         Para (mk_paragraph (py "<b>Score Overview</b>") Head);
         Chart chart; Spacer 1 15;
         Para (mk_paragraph (py "<b>Detailed Question Analysis</b>") Head);
         Spacer 1 5; Tbl t; Spacer 1 20]
        ++ (if nonempty remaining_text
            then [Para (mk_paragraph (format_remaining remaining_text) Body)]
            else [])).
  { intros Hne story. unfold build_story. rewrite Hne.
    destruct (Paragraph markup_error (py "<b>Score Overview</b>") Head)
      as [h1 | e] eqn:E1; cbn [bind]; [| discriminate].
    apply Paragraph_inv in E1. destruct E1 as [_ ->].
    destruct (create_score_chart qa_data) as [chart |] eqn:Ec;
      [| destruct qa_data; discriminate].
    cbn [bind].
    destruct (Paragraph markup_error (py "<b>Detailed Question Analysis</b>")
                        Head) as [h2 | e] eqn:E2; cbn [bind]; [| discriminate].
    apply Paragraph_inv in E2. destruct E2 as [_ ->].
    destruct (create_qa_table markup_error qa_data) as [[t |] | e] eqn:Et;
      cbn [bind];
      [| exfalso; apply (create_qa_table_some qa_data Hne Et) | discriminate].
    destruct (nonempty remaining_text).
    - destruct (Paragraph markup_error (format_remaining remaining_text) Body)
        as [b | e] eqn:Eb; cbn [bind]; [| discriminate].
      apply Paragraph_inv in Eb. destruct Eb as [_ ->].
      intros [= <-]. exists chart, t. auto.
    - intros [= <-]. exists chart, t. auto. }
  split; [exact Hshape | split].
  - intros Hne (Hh1 & Hh2) [t Ht] Hrem. unfold build_story. rewrite Hne.
    rewrite (Paragraph_ok _ _ Hh1). cbn [bind].
    destruct (create_score_chart qa_data); cbn [bind];
      rewrite (Paragraph_ok _ _ Hh2); cbn [bind]; rewrite Ht; cbn [bind];
      (destruct (nonempty remaining_text);
       [rewrite (Paragraph_ok _ _ (Hrem eq_refl)); cbn [bind] |]);
      eexists; reflexivity.
  - intros story Hs. destruct (nonempty qa_data) eqn:Hne.
    + destruct (Hshape eq_refl story Hs) as (chart & t & _ & _ & ->).
      destruct (nonempty remaining_text); cbn [app]; split;
        try (eexists; split; reflexivity);
        intros H; repeat (destruct H as [H | H]; [discriminate H |]); exact H.
    + revert Hs. unfold build_story. rewrite Hne. cbn [bind].
      destruct (nonempty remaining_text).
      * destruct (Paragraph markup_error (format_remaining remaining_text) Body)
          as [b | e]; cbn [bind]; [| discriminate].
        intros [= <-]. cbn [app]. split; [| eexists; split; reflexivity].
        intros H; repeat (destruct H as [H | H]; [discriminate H |]); exact H.
      * intros [= <-]. split; [| eexists; split; reflexivity].
        intros H; repeat (destruct H as [H | H]; [discriminate H |]); exact H.
Qed.

End TableAndStory.

Lemma table_has_one_row_per_record_witness :
  exists t,
    create_qa_table strict_markup
                    [(py "a", 7, py "<b>b</b>"); (py "c", 3, py "d")] =
    Ok (Some t) /\
    length (t_data t) = 3%nat /\
    nth_error (t_data t) 2 =
    Some [mk_paragraph (py "c") TabNormal;
          mk_paragraph (py "d") TabNormal;
          mk_paragraph (py "<font color='red'><b>3/10</b></font>") TabNormal].
Proof.
  destruct (table_has_one_row_per_record strict_markup
              [(py "a", 7, py "<b>b</b>"); (py "c", 3, py "d")] eq_refl)
    as (Hiff & _ & Hshape).
  destruct (proj1 Hiff) as [t Ht].
  { split; [repeat split | repeat constructor]. }
  exists t. split; [exact Ht |].
  destruct (Hshape t Ht) as (Hlen & _ & _ & _ & _ & Hrow).
  split; [exact Hlen |].
  exact (Hrow 1%nat (py "c", 3, py "d") eq_refl).
Defined.

(** A question with a [<b>] left open: the parser refuses it and no
    table is built. *)
Example open_bold_question_builds_no_table :
  create_qa_table strict_markup [(py "Use of <b>bold", 7, py "ok")] =
  Raise (ValueError (py "xml parser error")).
Proof. vm_compute. reflexivity. Qed.

Lemma style_index_and_score_cell_agree_witness :
  exists d bc fill name,
    create_score_chart [(py "a", 7, py "b"); (py "c", 3, py "d")] = Some d /\
    d_contents d = [bc] /\
    nth_error (bars_fillColor bc) 1 = Some fill /\
    band_of_fill fill = Some low /\
    band_of_name name = Some low.
Proof.
  destruct (create_qa_table strict_markup
              [(py "a", 7, py "b"); (py "c", 3, py "d")]) as [[t |] | e] eqn:Et;
    try (vm_compute in Et; discriminate Et).
  destruct (style_index_and_score_cell_agree strict_markup
              [(py "a", 7, py "b"); (py "c", 3, py "d")] 1
              (py "c", 3, py "d") t eq_refl Et)
    as (d & bc & fill & name & Hd & Hbc & Hfill & _ & Hband & _).
  exists d, bc, fill, name.
  split; [exact Hd |]. split; [exact Hbc |]. split; [exact Hfill |].
  injection Hd as <-. injection Hbc as <-.
  injection Hfill as <-. split; [reflexivity |].
  rewrite <- Hband. reflexivity.
Defined.

Lemma story_with_records_witness :
  exists chart t,
    create_score_chart [(py "a", 7, py "b")] = Some chart /\
    create_qa_table strict_markup [(py "a", 7, py "b")] = Ok (Some t) /\
    build_story strict_markup [(py "a", 7, py "b")] [] =
    Ok [NextPageTemplate (py "Later");
        Para (mk_paragraph (py "<b>Score Overview</b>") Head);
        Chart chart; Spacer 1 15;
        Para (mk_paragraph (py "<b>Detailed Question Analysis</b>") Head);
        Spacer 1 5; Tbl t; Spacer 1 20].
Proof.
  destruct (build_story strict_markup [(py "a", 7, py "b")] [])
    as [story | e] eqn:Es; [| vm_compute in Es; discriminate Es].
  destruct (proj1 (story_with_records strict_markup [(py "a", 7, py "b")] [])
              eq_refl story Es) as (chart & t & Hc & Ht & ->).
  exists chart, t. auto.
Defined.


(** * Further properties of the formatted remainder *)

Lemma lit_front_exact (p s : pystr) : lit_front no_flags p s = startswith p s.
Proof.
  revert s. induction p as [| c p IH]; intros [| x s]; cbn; auto.
  rewrite IH. reflexivity.
Qed.

Lemma startswith_firstn (p s : pystr) :
  startswith p s = true -> firstn (length p) s = p.
Proof.
  revert s. induction p as [| c p IH]; intros [| x s] H; try discriminate;
    cbn in *; auto.
  apply andb_prop in H. destruct H as [Hc H].
  apply Ascii.eqb_eq in Hc. subst x. rewrite (IH s H). reflexivity.
Qed.

Lemma startswith_length (p s : pystr) :
  startswith p s = true -> (length p <= length s)%nat.
Proof.
  revert s. induction p as [| c p IH]; intros [| x s] H; try discriminate;
    cbn in *; try lia.
  apply andb_prop in H. destruct H as [_ H]. apply IH in H. lia.
Qed.

(** One attempt of a grouped literal: it matches exactly the literal and
    the group is the literal. *)
Lemma exec_phrase (p s : pystr) :
  exec no_flags (Group 1 (lit p)) s =
  if startswith p s then Some (skipn (length p) s, [(1%nat, p)]) else None.
Proof.
  unfold exec. cbn [run]. rewrite run_lit, lit_front_exact.
  destruct (startswith p s) eqn:H; [| reflexivity].
  unfold set_group, consumed. rewrite length_skipn.
  replace (length s - (length s - length p))%nat with (length p)
    by (apply startswith_length in H; lia).
  rewrite (startswith_firstn p s H). reflexivity.
Qed.

Lemma sub_from_replace (c : ascii) (p : pystr) (repl : caps -> pystr) (s : pystr) :
  forall skip,
    sub_from no_flags (Group 1 (lit (c :: p))) repl skip s =
    replace_from (c :: p) (repl [(1%nat, c :: p)]) skip s.
Proof.
  induction s as [| x s IH]; intros [| k]; cbn [sub_from replace_from]; auto.
  rewrite exec_phrase.
  destruct (startswith (c :: p) (x :: s)) eqn:H.
  - rewrite length_skipn.
    replace (length (x :: s) - (length (x :: s) - length (c :: p)))%nat
      with (S (length p))
      by (apply startswith_length in H; cbn [length] in *; lia).
    replace (length (c :: p) - 1)%nat with (length p) by (cbn [length]; lia).
    rewrite IH. reflexivity.
  - rewrite IH. reflexivity.
Qed.

Lemma sub_phrase_replace (phrase : string) (t : list titem) (s : pystr) :
  py phrase <> [] ->
  sub_phrase phrase t s = replace (py phrase) (expand t [(1%nat, py phrase)]) s.
Proof.
  unfold sub_phrase, sub, replace. destruct (py phrase) as [| c p]; [congruence |].
  intros _. apply sub_from_replace.
Qed.

Lemma format_remaining_chain (remaining_text : pystr) :
  format_remaining remaining_text =
  replace (py "Weaknesses:") (py "<b>Weaknesses:</b>")
    (replace (py "Strengths:") (py "<b>Strengths:</b>")
       (replace (py "Final Recommendation:")
                (py "<br/><br/><b>Final Recommendation:</b>")
          (replace (py "Overall Evaluation:") (py "<b>Overall Evaluation:</b>")
             (replace (py "\n") (py "<br/>") remaining_text)))).
Proof.
  unfold format_remaining.
  rewrite !sub_phrase_replace by discriminate. reflexivity.
Qed.

(** X10: formatting the remainder is a chain of five literal
    replacements, in this order: line feeds by "<br/>", then the four
    phrases by their bold forms, "Final Recommendation:" with two more
    breaks in front; the substitutions by pattern never do more than a
    literal replacement does. *)
Theorem format_remaining_is_replacement (remaining_text : pystr) :
  format_remaining remaining_text =
  replace (py "Weaknesses:") (py "<b>Weaknesses:</b>")
    (replace (py "Strengths:") (py "<b>Strengths:</b>")
       (replace (py "Final Recommendation:")
                (py "<br/><br/><b>Final Recommendation:</b>")
          (replace (py "Overall Evaluation:") (py "<b>Overall Evaluation:</b>")
             (replace (py "\n") (py "<br/>") remaining_text)))).
Proof. exact (format_remaining_chain remaining_text). Qed.

Lemma replace_from_keeps (P : ascii -> bool) (old new : pystr) :
  forallb P new = true ->
  forall s skip, forallb P s = true ->
                 forallb P (replace_from old new skip s) = true.
Proof.
  intros Hn. induction s as [| x s IH]; intros skip H; [reflexivity |].
  cbn [forallb] in H. apply andb_prop in H. destruct H as [Hx Hs].
  cbn [replace_from]. destruct skip; [| apply IH; exact Hs].
  destruct (startswith old (x :: s)).
  - rewrite forallb_app, Hn. apply IH. exact Hs.
  - cbn [forallb]. rewrite Hx. apply IH. exact Hs.
Qed.

Lemma replace_line_feeds (new s : pystr) :
  no_newline new = true -> no_newline (replace [nl] new s) = true.
Proof.
  unfold no_newline, replace. intros Hn.
  induction s as [| x s IH]; [reflexivity |].
  cbn [replace_from startswith length Nat.sub]. rewrite andb_true_r.
  destruct (ascii_eqb nl x) eqn:E.
  - rewrite forallb_app, Hn. exact IH.
  - cbn [forallb]. rewrite IH, andb_true_r.
    unfold ascii_eqb in *. rewrite Ascii.eqb_sym, E. reflexivity.
Qed.

(** X11: the formatted remainder holds no line feed: every line break of
    the remainder has become markup. *)
Theorem format_remaining_has_no_line_feed (remaining_text : pystr) :
  no_newline (format_remaining remaining_text) = true.
Proof.
  rewrite format_remaining_chain. unfold no_newline, replace.
  do 4 (apply replace_from_keeps; [reflexivity |]).
  apply (replace_line_feeds (py "<br/>")). reflexivity.
Qed.

Lemma no_newline_absent (s : pystr) :
  no_newline s = true -> occurs (py "\n") s = false.
Proof.
  unfold no_newline. induction s as [| x s IH]; [reflexivity |].
  cbn [forallb]. intros H. apply andb_prop in H. destruct H as [Hx Hs].
  cbn [occurs]. rewrite (IH Hs), orb_false_r.
  change (py "\n") with [nl]. cbn [startswith]. rewrite andb_true_r.
  apply negb_true_iff in Hx. unfold ascii_eqb in *.
  rewrite Ascii.eqb_sym. exact Hx.
Qed.

(** X12: a remainder of one line in which none of the four phrases
    occurs as written, capitals included, is passed on unchanged: the
    bold markup is case-sensitive, the marker search is not. *)
Theorem format_remaining_plain (remaining_text : pystr) :
  no_newline remaining_text = true ->
  occurs (py "Overall Evaluation:") remaining_text = false ->
  occurs (py "Final Recommendation:") remaining_text = false ->
  occurs (py "Strengths:") remaining_text = false ->
  occurs (py "Weaknesses:") remaining_text = false ->
  format_remaining remaining_text = remaining_text.
Proof.
  intros Hn H1 H2 H3 H4. rewrite format_remaining_chain.
  rewrite (replace_absent _ _ _ (no_newline_absent _ Hn)).
  rewrite (replace_absent _ _ _ H1), (replace_absent _ _ _ H2),
    (replace_absent _ _ _ H3), (replace_absent _ _ _ H4).
  reflexivity.
Qed.

Lemma format_remaining_plain_witness :
  marker_at (py "overall evaluation: strong") = true /\
  format_remaining (py "overall evaluation: strong") =
  py "overall evaluation: strong".
Proof.
  split; [reflexivity |].
  apply (format_remaining_plain (py "overall evaluation: strong")); reflexivity.
Defined.


(** * Further properties of the request handler *)

Lemma first_missing_found (j : json) (fields : list pystr) (field : pystr) :
  first_missing j fields = Ok (Some field) ->
  In field fields /\ py_in field j = Ok false.
Proof.
  induction fields as [| f fields IH]; cbn [first_missing]; [discriminate |].
  destruct (py_in f j) as [[|] | e] eqn:E; cbn [bind negb].
  - intros H. destruct (IH H) as [Hi Hp]. split; [right; exact Hi | exact Hp].
  - intros [= <-]. split; [left; reflexivity | exact E].
  - discriminate.
Qed.

Lemma first_missing_all (j : json) (fields : list pystr) :
  first_missing j fields = Ok None ->
  Forall (fun f => py_in f j = Ok true) fields.
Proof.
  induction fields as [| f fields IH]; cbn [first_missing]; [constructor |].
  destruct (py_in f j) as [[|] | e] eqn:E; cbn [bind negb];
    try discriminate.
  intros H. constructor; [exact E | exact (IH H)].
Qed.

Section HandlerInversion.

Variable markup_error : pystr -> style -> option exn.
Variable pdf : Type.
Variable doc_build : json -> list flowable -> result pdf.
Variable format_value : json -> pystr.

(** X13: a document is sent only for a complete, valid request: the
    payload is a JSON object, every required field is a key of it,
    ai_overview is a text on which the parse returns, the story of that
    parse was assembled, the layout engine delivered the bytes from it,
    and the file is named "Report_<interview_id>.pdf" with the PDF media
    type. *)
Theorem document_only_for_valid_request (get_json : result json) (data : pdf)
        (download_name mimetype : pystr) :
  generate_report_api markup_error doc_build format_value get_json =
  SendFile data download_name mimetype ->
  exists m text id qa_data remaining_text story,
    get_json = Ok (JObj m) /\
    Forall (fun f => dict_get f m <> None) required_fields /\
    dict_get (py "ai_overview") m = Some (JStr text) /\
    parse_full_report text = Ok (qa_data, remaining_text) /\
    build_story markup_error qa_data remaining_text = Ok story /\
    doc_build (JObj m) story = Ok data /\
    dict_get (py "interview_id") m = Some id /\
    download_name = py "Report_" ++ format_value id ++ py ".pdf" /\
    mimetype = py "application/pdf".
Proof.
  unfold generate_report_api. destruct get_json as [j | e]; cbn [bind];
    [| discriminate].
  destruct (truthy j); cbn [negb]; [| discriminate].
  destruct (first_missing j required_fields) as [[f |] | e] eqn:Hm;
    cbn [bind]; try discriminate.
  destruct j as [| b | z | x | s | l | m]; cbn [subscript bind];
    try discriminate.
  destruct (dict_get (py "ai_overview") m) as [ai |] eqn:Hai; cbn [bind];
    [| discriminate].
  destruct ai as [| b | z | x | text | l | m']; cbn [parse_overview bind];
    try discriminate.
  destruct (parse_full_report text) as [[qa_data remaining_text] | e] eqn:Hp;
    cbn [bind]; [| discriminate].
  destruct (build_story markup_error qa_data remaining_text)
    as [story | e] eqn:Hs; cbn [bind]; [| discriminate].
  destruct (doc_build _ _) as [data' | e] eqn:Hb; cbn [bind]; [| discriminate].
  destruct (dict_get (py "interview_id") m) as [id |] eqn:Hid; cbn [bind];
    [| discriminate].
  intros [= <- <- <-].
  exists m, text, id, qa_data, remaining_text, story.
  repeat split; auto.
  apply first_missing_all in Hm.
  eapply Forall_impl; [| exact Hm].
  intros f Hf. cbn [py_in] in Hf. destruct (dict_get f m); [discriminate |].
  discriminate Hf.
Qed.

(** X14: an answer with status 400 is one of two: "No JSON data
    provided" for a payload that counts as false, or "Missing field:
    <name>" where <name> is a required field that is not in the
    payload. *)
Theorem bad_request_has_a_cause (get_json : result json)
        (body : list (pystr * pystr)) :
  generate_report_api markup_error doc_build format_value get_json = Jsonify 400 body ->
  exists req_data,
    get_json = Ok req_data /\
    ((truthy req_data = false /\
      body = error_body (py "No JSON data provided")) \/
     (truthy req_data = true /\
      exists field,
        In field required_fields /\ py_in field req_data = Ok false /\
        body = error_body (py "Missing field: " ++ field))).
Proof.
  unfold generate_report_api. destruct get_json as [j | e]; cbn [bind];
    [| discriminate].
  exists j. split; [reflexivity |].
  destruct (truthy j); cbn [negb].
  - right. split; [reflexivity |].
    destruct (first_missing j required_fields) as [[f |] | e] eqn:Hm;
      cbn [bind] in H; try discriminate H.
    + injection H as <-. exists f.
      destruct (first_missing_found j required_fields f Hm). auto.
    + exfalso. revert H.
      destruct (subscript j (py "ai_overview")) as [ai | e]; cbn [bind];
        [| discriminate].
      destruct (parse_overview ai) as [[qa rem] | e]; cbn [bind];
        [| discriminate].
      destruct (build_story markup_error qa rem); cbn [bind];
        [| discriminate].
      destruct (doc_build _ _); cbn [bind]; [| discriminate].
      destruct (subscript j (py "interview_id")); cbn [bind]; discriminate.
  - left. injection H as <-. auto.
Qed.

End HandlerInversion.

Lemma document_only_for_valid_request_witness :
  exists m text id qa_data remaining_text story,
    Ok worded_score_payload = Ok (JObj m) /\
    Forall (fun f => dict_get f m <> None) required_fields /\
    dict_get (py "ai_overview") m = Some (JStr text) /\
    parse_full_report text = Ok (qa_data, remaining_text) /\
    build_story plain_markup qa_data remaining_text = Ok story /\
    plain_build (JObj m) story = Ok [NextPageTemplate (py "Later")] /\
    dict_get (py "interview_id") m = Some id /\
    py "Report_42.pdf" = py "Report_" ++ plain_format id ++ py ".pdf" /\
    py "application/pdf" = py "application/pdf".
Proof.
  apply (document_only_for_valid_request plain_markup (list flowable) plain_build plain_format
           (Ok worded_score_payload)).
  vm_compute. reflexivity.
Defined.

Lemma bad_request_has_a_cause_witness :
  exists req_data,
    Ok (JArr [JStr (py "candidate_name")]) = Ok req_data /\
    ((truthy req_data = false /\
      error_body (py "Missing field: candidate_position") =
      error_body (py "No JSON data provided")) \/
     (truthy req_data = true /\
      exists field,
        In field required_fields /\ py_in field req_data = Ok false /\
        error_body (py "Missing field: candidate_position") =
        error_body (py "Missing field: " ++ field))).
Proof.
  apply (bad_request_has_a_cause plain_markup (list flowable) plain_build plain_format
           (Ok (JArr [JStr (py "candidate_name")]))).
  vm_compute. reflexivity.
Defined.


(** * Properties of the page backgrounds *)

Local Open Scope Z_scope.

Lemma open_states_from (ops : list canvas_op) (n : Z) :
  fold_left (fun n op =>
               match op with
               | saveState => n + 1
               | restoreState => n - 1
               | _ => n
               end) ops n = n + open_states ops.
Proof.
  unfold open_states. revert n.
  induction ops as [| op ops IH]; intros n; cbn [fold_left]; [lia |].
  rewrite IH. rewrite (IH (match op with
                           | saveState => 0 + 1
                           | restoreState => 0 - 1
                           | _ => 0
                           end)).
  destruct op; lia.
Qed.

Lemma open_states_app (a b : list canvas_op) :
  open_states (a ++ b) = open_states a + open_states b.
Proof.
  unfold open_states at 1. rewrite fold_left_app.
  rewrite open_states_from. reflexivity.
Qed.

Lemma first_page_text_open (w : env) (data : list (pystr * json))
      (id_prefix : pystr) :
  open_states (first_page_text w data id_prefix) = 1.
Proof.
  unfold first_page_text.
  destruct (path_exists w TEMPLATE_PATH), (draws w (ImageFile TEMPLATE_PATH)),
    (register_custom_fonts w); reflexivity.
Qed.

Lemma first_page_text_no_photo (w : env) (data : list (pystr * json))
      (id_prefix : pystr) :
  filter is_photo (first_page_text w data id_prefix) = [].
Proof.
  unfold first_page_text.
  destruct (path_exists w TEMPLATE_PATH), (draws w (ImageFile TEMPLATE_PATH)),
    (register_custom_fonts w); reflexivity.
Qed.

Lemma first_page_text_texts (w : env) (data : list (pystr * json))
      (id_prefix : pystr) :
  texts (first_page_text w data id_prefix) =
  [ field_text w data "candidate_name";
    field_text w data "candidate_position";
    field_text w data "date";
    id_prefix ++ field_text w data "interview_id" ].
Proof.
  unfold first_page_text.
  destruct (path_exists w TEMPLATE_PATH), (draws w (ImageFile TEMPLATE_PATH)),
    (register_custom_fonts w); reflexivity.
Qed.

Lemma texts_app (a b : list canvas_op) : texts (a ++ b) = texts a ++ texts b.
Proof.
  induction a as [| op a IH]; [reflexivity |].
  cbn [app texts]. destruct (text_of op); rewrite IH; reflexivity.
Qed.

Lemma default_photo_nonempty : nonempty PHOTO_URL_DEFAULT = true.
Proof. vm_compute. reflexivity. Qed.

Lemma image_to_draw_cases (w : env) (data : list (pystr * json)) (img : image) :
  image_to_draw w data = Some img ->
  exists src,
    img = ImageReader src /\ image_loads w src = true /\
    ((src = user_photo_of data /\ truthy src = true) \/
     (src = JStr PHOTO_URL_DEFAULT /\
      (truthy (user_photo_of data) = false \/
       image_loads w (user_photo_of data) = false))).
Proof.
  unfold image_to_draw.
  destruct (truthy (user_photo_of data)) eqn:Ht.
  - destruct (image_loads w (user_photo_of data)) eqn:Hl.
    + intros [= <-]. exists (user_photo_of data).
      split; [reflexivity | split; [exact Hl | left; split; [reflexivity | exact Ht]]].
    + rewrite default_photo_nonempty.
      destruct (image_loads w (JStr PHOTO_URL_DEFAULT)) eqn:Hd;
        [| discriminate].
      intros [= <-]. exists (JStr PHOTO_URL_DEFAULT).
    split; [reflexivity | split; [exact Hd | right; split; [reflexivity | auto]]].
  - rewrite default_photo_nonempty.
    destruct (image_loads w (JStr PHOTO_URL_DEFAULT)) eqn:Hd;
      [| discriminate].
    intros [= <-]. exists (JStr PHOTO_URL_DEFAULT).
    split; [reflexivity | split; [exact Hd | right; split; [reflexivity | auto]]].
Qed.

(** X15: on the first page of app.py a photo is drawn only from a
    source that loaded and could be drawn, and that source is the
    request's photo_url, or the default photo in case photo_url is
    absent, counts as false or could not be loaded. *)
Theorem first_page_photo_source (w : env) (data : list (pystr * json))
        (src : json) (x y width height : num) (mask : option pystr) :
  In (drawImage (ImageReader src) x y width height mask)
     (draw_first_page_bg w data) ->
  image_loads w src = true /\ draws w (ImageReader src) = true /\
  ((src = user_photo_of data /\ truthy src = true) \/
   (src = JStr PHOTO_URL_DEFAULT /\
    (truthy (user_photo_of data) = false \/
     image_loads w (user_photo_of data) = false))).
Proof.
  intros H.
  assert (Hp : In (drawImage (ImageReader src) x y width height mask)
                  (filter is_photo (draw_first_page_bg w data))).
  { apply filter_In. split; [exact H | reflexivity]. }
  clear H. revert Hp. unfold draw_first_page_bg.
  destruct (image_to_draw w data) as [img |] eqn:Hi.
  - destruct (image_to_draw_cases w data img Hi) as (s & -> & Hl & Hc).
    destruct (draws w (ImageReader s)) eqn:Hd;
      rewrite !filter_app, first_page_text_no_photo; cbn [filter is_photo app].
    + intros [[= <-] | []]. auto.
    + intros [].
  - rewrite !filter_app, first_page_text_no_photo; cbn [filter is_photo app].
    intros [].
Qed.

(** X16: the first-page callback of app.py leaves one saved graphics
    state open exactly when a photo was chosen and drawing it fails;
    that of main.py and the callback of the later pages always leave
    none open. *)
Theorem saved_states_left_open (w : env) (data : list (pystr * json))
        (page : Z) :
  open_states (draw_first_page_bg w data) =
    match image_to_draw w data with
    | Some img => if draws w img then 0 else 1
    | None => 0
    end /\
  open_states (MainPy.draw_first_page_bg w data) = 0 /\
  open_states (draw_later_pages_bg page) = 0.
Proof.
  split; [| split].
  - unfold draw_first_page_bg.
    destruct (image_to_draw w data) as [img |];
      [destruct (draws w img) |];
      rewrite !open_states_app, first_page_text_open; reflexivity.
  - unfold MainPy.draw_first_page_bg.
    match goal with
    | |- context [image_loads w ?u] =>
        destruct (image_loads w u);
          [destruct (draws w (ImageReader u)) |]
    end;
      rewrite !open_states_app, first_page_text_open; reflexivity.
  - reflexivity.
Qed.

(** X17: when the request's photo_url counts as true and cannot be
    loaded, app.py draws the default photo (where that one loads and
    can be drawn), while main.py draws no photo at all. *)
Theorem unloadable_photo_fallback (w : env) (data : list (pystr * json)) :
  truthy (user_photo_of data) = true ->
  image_loads w (user_photo_of data) = false ->
  image_loads w (JStr PHOTO_URL_DEFAULT) = true ->
  draws w (ImageReader (JStr PHOTO_URL_DEFAULT)) = true ->
  filter is_photo (draw_first_page_bg w data) =
    [drawImage (ImageReader (JStr PHOTO_URL_DEFAULT))
               (Lit 465) (Sub (Sub PAGE_HEIGHT (Lit 108)) (Lit 91))
               (Lit 84) (Lit 91) None] /\
  filter is_photo (MainPy.draw_first_page_bg w data) = [].
Proof.
  intros Ht Hl Hd Hw. split.
  - unfold draw_first_page_bg, image_to_draw.
    rewrite Ht, Hl.
    rewrite default_photo_nonempty. rewrite Hd, Hw.
    rewrite !filter_app, first_page_text_no_photo. reflexivity.
  - unfold MainPy.draw_first_page_bg. unfold user_photo_of in Ht, Hl.
    destruct (dict_get (py "photo_url") data) as [v |];
      [| discriminate Ht].
    rewrite Ht. cbn [negb]. rewrite Hl.
    rewrite !filter_app, first_page_text_no_photo. reflexivity.
Qed.

(** X18: whatever the template, the font and the photo do, the first
    page carries the same four lines of text, in the order name,
    position, date, interview id, a field that is absent giving an
    empty line; main.py puts "ID: " before the id, app.py nothing. *)
Theorem first_page_lines (w : env) (data : list (pystr * json)) :
  texts (draw_first_page_bg w data) =
    [ field_text w data "candidate_name";
      field_text w data "candidate_position";
      field_text w data "date";
      field_text w data "interview_id" ] /\
  texts (MainPy.draw_first_page_bg w data) =
    [ field_text w data "candidate_name";
      field_text w data "candidate_position";
      field_text w data "date";
      py "ID: " ++ field_text w data "interview_id" ].
Proof.
  split.
  - unfold draw_first_page_bg.
    destruct (image_to_draw w data) as [img |];
      [destruct (draws w img) |];
      rewrite !texts_app, first_page_text_texts; reflexivity.
  - unfold MainPy.draw_first_page_bg.
    match goal with
    | |- context [image_loads w ?u] =>
        destruct (image_loads w u);
          [destruct (draws w (ImageReader u)) |]
    end;
      rewrite !texts_app, first_page_text_texts; reflexivity.
Qed.

Lemma first_page_photo_source_witness :
  image_loads (bare_env is_default_photo true) (JStr PHOTO_URL_DEFAULT) = true /\
  draws (bare_env is_default_photo true)
        (ImageReader (JStr PHOTO_URL_DEFAULT)) = true /\
  ((JStr PHOTO_URL_DEFAULT = user_photo_of sample_candidate /\
    truthy (JStr PHOTO_URL_DEFAULT) = true) \/
   (JStr PHOTO_URL_DEFAULT = JStr PHOTO_URL_DEFAULT /\
    (truthy (user_photo_of sample_candidate) = false \/
     image_loads (bare_env is_default_photo true)
                 (user_photo_of sample_candidate) = false))).
Proof.
  apply (first_page_photo_source (bare_env is_default_photo true)
           sample_candidate (JStr PHOTO_URL_DEFAULT)
           (Lit 465) (Sub (Sub PAGE_HEIGHT (Lit 108)) (Lit 91))
           (Lit 84) (Lit 91) None).
  vm_compute. do 11 right. left. reflexivity.
Defined.

Lemma unloadable_photo_fallback_witness :
  filter is_photo
         (draw_first_page_bg (bare_env is_default_photo true) sample_candidate) =
    [drawImage (ImageReader (JStr PHOTO_URL_DEFAULT))
               (Lit 465) (Sub (Sub PAGE_HEIGHT (Lit 108)) (Lit 91))
               (Lit 84) (Lit 91) None] /\
  filter is_photo
         (MainPy.draw_first_page_bg (bare_env is_default_photo true)
                                    sample_candidate) = [].
Proof.
  apply (unloadable_photo_fallback (bare_env is_default_photo true)
                                   sample_candidate);
    vm_compute; reflexivity.
Defined.

(** A default photo that loads and cannot be drawn leaves the inner
    saved state of app.py open. *)
Example undrawable_photo_leaves_state_open :
  open_states (draw_first_page_bg (bare_env is_default_photo false)
                                  sample_candidate) = 1.
Proof. vm_compute. reflexivity. Qed.

Local Close Scope Z_scope.


Local Open Scope Z_scope.

Lemma fonts_app (a b : list canvas_op) : fonts (a ++ b) = fonts a ++ fonts b.
Proof.
  induction a as [| op a IH]; [reflexivity |].
  destruct op; cbn [app fonts]; rewrite IH; reflexivity.
Qed.

Lemma first_page_text_fonts (w : env) (data : list (pystr * json))
      (id_prefix : pystr) :
  fonts (first_page_text w data id_prefix) =
  if path_exists w FONT_PATH_REGULAR && font_loads w FONT_PATH_REGULAR
  then [(FONT_NAME_REGULAR, 14); (FONT_NAME_REGULAR, 11);
        (FONT_NAME_REGULAR, 10)]
  else [(py "Helvetica-Bold", 14); (py "Helvetica", 11); (py "Helvetica", 10)].
Proof.
  unfold first_page_text, register_custom_fonts.
  destruct (path_exists w TEMPLATE_PATH), (draws w (ImageFile TEMPLATE_PATH)),
    (path_exists w FONT_PATH_REGULAR), (font_loads w FONT_PATH_REGULAR);
    reflexivity.
Qed.

(** X19: in both files the first page sets a font three times, in the
    sizes 14, 11 and 10: the custom font each time when its file exists
    and registers, otherwise Helvetica-Bold for the name and Helvetica
    for the other lines; template and photo have no part in it. *)
Theorem first_page_fonts (w : env) (data : list (pystr * json)) :
  let expected :=
    if path_exists w FONT_PATH_REGULAR && font_loads w FONT_PATH_REGULAR
    then [(FONT_NAME_REGULAR, 14); (FONT_NAME_REGULAR, 11);
          (FONT_NAME_REGULAR, 10)]
    else [(py "Helvetica-Bold", 14); (py "Helvetica", 11);
          (py "Helvetica", 10)] in
  fonts (draw_first_page_bg w data) = expected /\
  fonts (MainPy.draw_first_page_bg w data) = expected.
Proof.
  cbv zeta. split.
  - unfold draw_first_page_bg.
    destruct (image_to_draw w data) as [img |];
      [destruct (draws w img) |];
      rewrite !fonts_app, first_page_text_fonts; cbn [fonts];
      rewrite ?app_nil_r; reflexivity.
  - unfold MainPy.draw_first_page_bg.
    match goal with
    | |- context [image_loads w ?u] =>
        destruct (image_loads w u);
          [destruct (draws w (ImageReader u)) |]
    end;
      rewrite !fonts_app, first_page_text_fonts; cbn [fonts];
      rewrite ?app_nil_r; reflexivity.
Qed.

Local Close Scope Z_scope.

Section HandlerFailure.

Variable markup_error : pystr -> style -> option exn.
Variable pdf : Type.
Variable doc_build : json -> list flowable -> result pdf.
Variable format_value : json -> pystr.


End HandlerFailure.


(** With every file present and every call returning, the first page of
    app.py for the sample candidate: template, text in the custom font,
    the candidate's own photo inside its clip. *)
Example full_env_first_page :
  draw_first_page_bg full_env sample_candidate =
  [ saveState;
    drawImage (ImageFile TEMPLATE_PATH) (Lit 0) (Lit 0)
              PAGE_WIDTH PAGE_HEIGHT None;
    setFillColor (py "white");
    setFont FONT_NAME_REGULAR 14;
    drawString (Lit 43) (Sub (Sub PAGE_HEIGHT (Lit 125)) (Lit 12))
               (py "Asha Rao");
    setFont FONT_NAME_REGULAR 11;
    drawString (Lit 43) (Sub (Sub PAGE_HEIGHT (Lit 147)) (Lit 10)) [];
    setFont FONT_NAME_REGULAR 10;
    drawString (Lit 43) (Sub (Sub PAGE_HEIGHT (Lit 165)) (Lit 10)) [];
    drawString (Lit 43) (Sub (Sub PAGE_HEIGHT (Lit 180)) (Lit 10)) (py "42");
    saveState;
    clipPath (roundRect (Lit 465) (Sub (Sub PAGE_HEIGHT (Lit 108)) (Lit 91))
                        (Lit 84) (Lit 91) (Lit 5));
    drawImage (ImageReader (JStr (py "https://example.org/asha.png")))
              (Lit 465) (Sub (Sub PAGE_HEIGHT (Lit 108)) (Lit 91))
              (Lit 84) (Lit 91) None;
    restoreState;
    restoreState ]%Z.
Proof. vm_compute. reflexivity. Qed.
